(** * GreenCart Logistics back end: the simulation endpoint of [server.js]

    A shallow embedding of the token check, the request validation, the two
    cost helpers and the handler of [POST /api/simulation], and of the routes
    that fill the collections, followed by the properties of the written
    specification that concern them.

    Conventions of the embedding.
    - A JavaScript number is an exact rational ([Q]), and the sums and
      products of the handler are taken exactly. Two places depart from
      this. A total that an [undefined] operand has turned into [NaN] is
      kept as [NaN] ([Js.number]). The efficiency score, which the handler
      rounds to hundredths, is computed in binary64 ([Double]), where the
      rounding of the quotient decides the hundredth. The remainder
      [x % 0], [NaN] too, is written [None].
    - A request field is absent ([None], for [undefined] and [null]) or holds
      a JSON value of the kind the handler expects: a number for
      [availableDrivers] and [maxHoursPerDay], a string for [startTime].
    - An exception raised inside the handler's [try] block is [None] in the
      option monad; the [catch] clause turns it into the 500 response.
    - The lookup table of the routes is a plain object: it answers to the
      member names of [Object.prototype] as well as to its own keys, and an
      assignment to the key [__proto__] sets its prototype. What a Mongoose
      document answers to, once a route named [__proto__] has made a
      document the prototype of the table, is not modelled: the properties
      that speak of names the catalog lacks are stated for a catalog
      without such a route ([plain_catalog]). *)

From Stdlib Require Import QArith Qcanon Qround ZArith Lia Lqa String Ascii List Bool.
From Stdlib Require Import Qabs SpecFloat DecimalString.
From stdpp Require Import gmap strings list.

Local Open Scope Q_scope.

(** ** Numbers as the script uses them *)

Module Js.

(** [Math.round]: the nearest integer, a half going up. *)
Definition Math_round (x : Q) : Z := Qfloor (x + (1 # 2)).

(** [a < b] and [a > b] on numbers. *)
Definition lt (a b : Q) : bool := negb (Qle_bool b a).
Definition gt (a b : Q) : bool := lt b a.

(** Truthiness of a number ([0] is falsy) and of a string (the empty string
    is falsy). *)
Definition truthy (x : Q) : bool := negb (Qeq_bool x 0).
Definition truthy_string (s : string) : bool :=
  match s with EmptyString => false | String _ _ => true end.

(** Rounding toward zero, the integer quotient behind [%]. *)
Definition trunc (x : Q) : Z := if Qle_bool 0 x then Qfloor x else Qceiling x.

(** [a % b]: the remainder has the sign of [a]; [None] is [NaN]. *)
Definition rem (a b : Q) : option Q :=
  if Qeq_bool b 0 then None else Some (a - b * inject_Z (trunc (a / b))).

(** [xs[i]] for a number [i]: an element when [i] is a whole number inside
    the array, [undefined] otherwise (also for [NaN]). *)
Definition index {A : Type} (xs : list A) (i : option Q) : option A :=
  match i with
  | None => None
  | Some q =>
      let r := Qred q in
      if (Qden r =? 1)%positive && (0 <=? Qnum r)%Z
      then xs !! Z.to_nat (Qnum r)
      else None
  end.

(** A running total: a number, or [NaN] once an operand was [NaN]. *)
Inductive number : Type :=
| Num (q : Q)
| NaN.

(** [x + y] and [Math.round(x)] on such totals; [Math.round(NaN)] is [NaN],
    written [None]. *)
Definition plus (x y : number) : number :=
  match x, y with
  | Num a, Num b => Num (a + b)
  | _, _ => NaN
  end.

Definition Math_round_number (x : number) : option Z :=
  match x with
  | Num q => Some (Math_round q)
  | NaN => None
  end.

End Js.

(** ** Binary64 numbers, for the efficiency score

    The IEEE 754 double precision format: 53 bits of precision, rounding to
    the nearest value, ties to the even one. *)

Module Double.

Definition prec : Z := 53.
Definition emax : Z := 1024.

(** The double nearest to a whole number. *)
Definition of_Z (z : Z) : spec_float := binary_normalize prec emax z 0 false.

Definition mul : spec_float -> spec_float -> spec_float := SFmul prec emax.
Definition div : spec_float -> spec_float -> spec_float := SFdiv prec emax.

(** The exact value of a finite double; [None] for an infinity and for
    [NaN]. *)
Definition to_Q (x : spec_float) : option Q :=
  match x with
  | S754_zero _ => Some 0
  | S754_finite s m e =>
      let v :=
        if (0 <=? e)%Z then inject_Z (Zpos m * 2 ^ e)
        else Qmake (Zpos m) (Z.to_pos (2 ^ (- e))) in
      Some (if s then - v else v)
  | S754_infinity _ | S754_nan => None
  end.

(** [Math.round] of a finite double: a whole number, exactly. *)
Definition Math_round (x : spec_float) : option Z :=
  match to_Q x with
  | Some q => Some (Js.Math_round q)
  | None => None
  end.

End Double.

(** ** Regular expressions, as far as [timeRegex] needs them

    A string is read as its sequence of character codes; the pattern looks
    at digits and the colon only. *)

Inductive regex : Type :=
| Bol                           (* ^ *)
| Eol                           (* $ (no multiline flag) *)
| Chr (c : ascii)               (* a literal character *)
| Range (lo hi : ascii)         (* [lo-hi] *)
| Opt (r : regex)               (* r? *)
| Seq (r1 r2 : regex)           (* r1 r2 *)
| Alt (r1 r2 : regex).          (* r1|r2 *)

Definition in_range (lo hi c : ascii) : bool :=
  (N_of_ascii lo <=? N_of_ascii c)%N && (N_of_ascii c <=? N_of_ascii hi)%N.

(** Backtracking matcher: [run r pos s k] matches [r] at offset [pos], where
    [s] is the rest of the input, and hands what is left to [k]. *)
Fixpoint run (r : regex) (pos : nat) (s : string) (k : nat -> string -> bool) : bool :=
  match r with
  | Bol => Nat.eqb pos 0 && k pos s
  | Eol => match s with EmptyString => k pos s | String _ _ => false end
  | Chr c =>
      match s with
      | String a t => Ascii.eqb a c && k (S pos) t
      | EmptyString => false
      end
  | Range lo hi =>
      match s with
      | String a t => in_range lo hi a && k (S pos) t
      | EmptyString => false
      end
  | Opt r1 => run r1 pos s k || k pos s
  | Seq r1 r2 => run r1 pos s (fun p t => run r2 p t k)
  | Alt r1 r2 => run r1 pos s k || run r2 pos s k
  end.

(** [RegExp.prototype.test] without the [g] and [y] flags: a match may start
    at any offset of the input. *)
Fixpoint search (r : regex) (pos : nat) (s : string) : bool :=
  run r pos s (fun _ _ => true)
  || match s with
     | String _ t => search r (S pos) t
     | EmptyString => false
     end.

Definition test (r : regex) (s : string) : bool := search r 0 s.

(** [/^([0-1]?[0-9]|2[0-3]):[0-5][0-9]$/] *)
Definition timeRegex : regex :=
  Seq Bol
   (Seq (Alt (Seq (Opt (Range "0" "1")) (Range "0" "9"))
             (Seq (Chr "2") (Range "0" "3")))
    (Seq (Chr ":")
     (Seq (Range "0" "5")
      (Seq (Range "0" "9") Eol)))).

(** ** The time formats in words

    These two follow the prose, not the code: a time of day written with a
    two-digit hour, and one written with a one-digit hour. *)

Definition is_digit (c : ascii) : bool := in_range "0" "9" c.
Definition digit_value (c : ascii) : N := (N_of_ascii c - 48)%N.

Definition minutes_ok (m1 m2 : ascii) : bool :=
  is_digit m1 && is_digit m2 && (10 * digit_value m1 + digit_value m2 <=? 59)%N.

(** [HH:MM], hours 00 to 23, minutes 00 to 59. *)
Definition is_HH_MM (s : string) : bool :=
  match s with
  | String h1 (String h2 (String c (String m1 (String m2 EmptyString)))) =>
      is_digit h1 && is_digit h2
      && (10 * digit_value h1 + digit_value h2 <=? 23)%N
      && Ascii.eqb c ":" && minutes_ok m1 m2
  | _ => false
  end.

(** [H:MM], hours 0 to 9, minutes 00 to 59. *)
Definition is_H_MM (s : string) : bool :=
  match s with
  | String h (String c (String m1 (String m2 EmptyString))) =>
      is_digit h && Ascii.eqb c ":" && minutes_ok m1 m2
  | _ => false
  end.

(** ** The data model (the Mongoose schemas) *)

Definition ObjectId : Type := N.

Record Driver : Type := {
  _id : ObjectId;
  name : string;
  currentShiftHours : Q;
  past7DayWorkHours : Q;
  isFatigued : bool
}.

Inductive TrafficLevel : Type := Low | Medium | High.

Record Route : Type := {
  routeId : string;
  distance : Q;
  trafficLevel : TrafficLevel;
  baseTime : Q                      (* in minutes *)
}.

Record Order : Type := {
  orderId : string;
  valueRs : Q;
  assignedRoute : string;
  deliveryTimestamp : Z;            (* a date, in milliseconds *)
  assignedDriver : option ObjectId;
  actualDeliveryTime : option Q;    (* in minutes *)
  isOnTime : bool;
  penalty : Q;
  bonus : Q
}.

(** The body of a simulation request; it is also what a stored run keeps
    under [inputs]. *)
Record SimulationBody : Type := {
  availableDrivers : option Q;
  startTime : option string;
  maxHoursPerDay : option Q
}.

Module Results.
Record t : Type := {
  totalProfit : Z;
  efficiencyScore : Q;
  onTimeDeliveries : nat;
  totalDeliveries : nat;
  fuelCost : Z;
  penalties : Q;
  bonuses : Z
}.
End Results.

(** A breakdown entry, [{ label, value }]. *)
Definition Entry : Type := (string * Z)%type.

(** The elements of the two breakdown arrays of a stored run, as the schema
    of [SimulationResult] declares them; a path that was not set is [None].
    (The [_id] that a sub-document is given is left out.) *)
Module DeliveryBreakdown.
Record t : Type := {
  onTime : option Q;
  late : option Q
}.
End DeliveryBreakdown.

Module FuelCostBreakdown.
Record t : Type := {
  routeType : option string;
  cost : option Q
}.
End FuelCostBreakdown.

Record SimulationResult : Type := {
  sim_id : ObjectId;
  inputs : SimulationBody;
  results : Results.t;
  deliveryBreakdown : list DeliveryBreakdown.t;
  fuelCostBreakdown : list FuelCostBreakdown.t
}.

(** The four collections the endpoint reads or writes. *)
Record Database : Type := {
  db_drivers : list Driver;
  db_routes : list Route;
  db_orders : list Order;
  db_simulations : list SimulationResult
}.

(** ** Responses *)

Inductive ErrorMessage : Type :=
| Text (s : string)
| NotEnoughDrivers (found : nat) (requested : Q).
    (* `Not enough drivers available. Found ${found}, requested ${requested}` *)

Inductive Response : Type :=
| Status (code : nat) (error : ErrorMessage)
    (* res.status(code).json({ error }) *)
| Json (results : Results.t) (deliveryBreakdown fuelCostBreakdown : list Entry)
       (simulationId : ObjectId).
    (* res.json({ results, deliveryBreakdown, fuelCostBreakdown, simulationId }) *)

Definition MissingField : Response :=
  Status 400 (Text "Missing required parameters: availableDrivers, startTime, maxHoursPerDay").
Definition DriverCountOutOfRange : Response :=
  Status 400 (Text "Available drivers must be between 1 and 50").
Definition HoursOutOfRange : Response :=
  Status 400 (Text "Max hours per day must be between 1 and 24").
Definition BadTimeFormat : Response :=
  Status 400 (Text "Start time must be in HH:MM format").
Definition SimulationFailed : Response :=
  Status 500 (Text "Simulation failed").

(** ** Validation middleware *)

Inductive Middleware : Type :=
| Respond (r : Response)        (* the middleware answered the request *)
| Next.                         (* next() *)

Definition validateSimulationInputs (body : SimulationBody) : Middleware :=
  match availableDrivers body, startTime body, maxHoursPerDay body with
  | Some availableDrivers, Some startTime, Some maxHoursPerDay =>
      if negb (Js.truthy availableDrivers) || negb (Js.truthy_string startTime)
         || negb (Js.truthy maxHoursPerDay)
      then Respond MissingField
      else if Js.lt availableDrivers 1 || Js.gt availableDrivers 50
      then Respond DriverCountOutOfRange
      else if Js.lt maxHoursPerDay 1 || Js.gt maxHoursPerDay 24
      then Respond HoursOutOfRange
      else if negb (test timeRegex startTime)
      then Respond BadTimeFormat
      else Next
  | _, _, _ => Respond MissingField
  end.

(** ** Simulation logic *)

(** What a parameter of the helpers may be bound to at run time. *)
Inductive Doc : Type :=
| Undefined
| DriverDoc (d : Driver)
| RouteDoc (r : Route).

Definition doc_of_driver (d : option Driver) : Doc :=
  match d with Some d => DriverDoc d | None => Undefined end.

(** [x.isFatigued]: the flag of a driver document; [undefined], which is
    falsy, on a route document, whose schema has no such path; a
    [TypeError] on [undefined]. *)
Definition get_isFatigued (x : Doc) : option bool :=
  match x with
  | DriverDoc d => Some (isFatigued d)
  | RouteDoc _ => Some false
  | Undefined => None
  end.

Definition calculateDeliveryTime (route driver : Doc) (baseTime : Q) : option Z :=
  match get_isFatigued driver with
  | None => None
  | Some fatigued =>
      let deliveryTime := if fatigued then baseTime * (13 # 10) else baseTime in
      Some (Js.Math_round deliveryTime)
  end.

Definition calculateFuelCost (route : Route) : Q :=
  let baseCost := 5 * distance route in
  match trafficLevel route with
  | High => baseCost + 2 * distance route
  | _ => baseCost
  end.


(** The running totals of the handler (its [let] variables, and the object
    [fuelCostByTraffic]). *)
Record Totals : Type := {
  totalProfit : Js.number;
  totalFuelCost : Js.number;
  totalPenalties : Q;
  totalBonuses : Q;
  onTimeDeliveries : nat;
  fuelCostByTraffic : TrafficLevel -> Q;
    (* the keys Low, Medium and High *)
  fuelCostByTraffic_undefined : bool
    (* whether the object has got the key 'undefined' as well; it holds NaN *)
}.

Definition initial_totals : Totals :=
  {| totalProfit := Js.Num 0; totalFuelCost := Js.Num 0; totalPenalties := 0;
     totalBonuses := 0; onTimeDeliveries := 0;
     fuelCostByTraffic := fun _ => 0;
     fuelCostByTraffic_undefined := false |}.

(** [fuelCostByTraffic[level] += cost] *)
Definition add_fuel (f : TrafficLevel -> Q) (level : TrafficLevel) (cost : Q)
  : TrafficLevel -> Q :=
  fun l =>
    match l, level with
    | Low, Low | Medium, Medium | High, High => f l + cost
    | _, _ => f l
    end.

(** An element of [processedOrders]. *)
Inductive ProcessedOrder : Type :=
| Document (order : Order)
    (* `return order`: the fetched document itself *)
| Object (fields : Order) (fuelCost : Q)
    (* a new object: the document's fields, five of them set afresh, and fuelCost *)
| Unpriced (order : Order) (assignedDriver : ObjectId) (bonus : Q).
    (* a new object: the document's fields, assignedDriver, isOnTime true,
       penalty 0 and bonus, with NaN for actualDeliveryTime and for fuelCost *)

(** [driver.isFatigued = driver.currentShiftHours > 8] *)
Definition checkFatigue (driver : Driver) : Driver :=
  {| _id := _id driver; name := name driver;
     currentShiftHours := currentShiftHours driver;
     past7DayWorkHours := past7DayWorkHours driver;
     isFatigued := Js.gt (currentShiftHours driver) 8 |}.

(** *** The route lookup table, a plain object *)

(** The names every object answers to, those of [Object.prototype]. *)
Definition Object_prototype : list string :=
  [ "constructor"; "__defineGetter__"; "__defineSetter__"; "hasOwnProperty";
    "__lookupGetter__"; "__lookupSetter__"; "isPrototypeOf";
    "propertyIsEnumerable"; "toString"; "valueOf"; "__proto__";
    "toLocaleString" ]%string.

Definition inherited (key : string) : bool :=
  existsb (String.eqb key) Object_prototype.

(** The object [routeMap]: its own keys, and the route document that an
    assignment to [__proto__] has made its prototype, if any. *)
Record RouteMap : Type := {
  own : gmap string Route;
  prototype : option Route
}.

(** [{}] *)
Definition empty_object : RouteMap := {| own := ∅; prototype := None |}.

(** [routeMap[route.routeId] = route]. The key [__proto__] is the setter of
    the prototype: it adds no key of the object's own. *)
Definition routeMap_set (routeMap : RouteMap) (route : Route) : RouteMap :=
  if String.eqb (routeId route) "__proto__"
  then {| own := own routeMap; prototype := Some route |}
  else {| own := <[routeId route := route]> (own routeMap);
          prototype := prototype routeMap |}.

(** [routes.forEach(route => { routeMap[route.routeId] = route; })] *)
Definition make_routeMap (routes : list Route) : RouteMap :=
  fold_left routeMap_set routes empty_object.

(** What [routeMap[key]] gives: a route document; a member that comes with
    every object, which is a function or, for [__proto__],
    [Object.prototype] itself, hence truthy and without [baseTime],
    [distance] or [trafficLevel]; or [undefined]. *)
Inductive Member : Type :=
| Resolved (route : Route)
| Inherited
| NoMember.

Definition routeMap_get (routeMap : RouteMap) (key : string) : Member :=
  match own routeMap !! key with
  | Some route => Resolved route
  | None =>
      if String.eqb key "__proto__"
      then match prototype routeMap with
           | Some route => Resolved route
           | None => Inherited
           end
      else if inherited key then Inherited
      else NoMember
  end.

Section OrderProcessing.

(** The variables the callback of [orders.map] closes over. *)
Variable availableDrivers : Q.
Variable drivers : list Driver.
Variable routeMap : RouteMap.

Definition processOrder (acc : Totals) (index : nat) (order : Order)
  : option (Totals * ProcessedOrder) :=
  match routeMap_get routeMap (assignedRoute order) with
  | NoMember => Some (acc, Document order)      (* if (!route) return order *)
  | Resolved route =>
      let driverIndex := Js.rem (inject_Z (Z.of_nat index)) availableDrivers in
      let assignedDriver := Js.index drivers driverIndex in
      actualDeliveryTime ←
        calculateDeliveryTime (doc_of_driver assignedDriver) (RouteDoc route)
                              (baseTime route);
      let isLate := Js.gt (inject_Z actualDeliveryTime) (baseTime route + 10) in
      let penalty := if isLate then 50 else 0 in
      let bonus :=
        if isLate then 0
        else if Js.gt (valueRs order) 1000 then valueRs order * (1 # 10) else 0 in
      let fuelCost := calculateFuelCost route in
      let orderProfit := valueRs order + bonus - penalty - fuelCost in
      driver ← assignedDriver;   (* assignedDriver._id *)
      Some
        ({| totalProfit := Js.plus (totalProfit acc) (Js.Num orderProfit);
            totalFuelCost := Js.plus (totalFuelCost acc) (Js.Num fuelCost);
            totalPenalties := totalPenalties acc + penalty;
            totalBonuses := totalBonuses acc + bonus;
            onTimeDeliveries :=
              if isLate then onTimeDeliveries acc else S (onTimeDeliveries acc);
            fuelCostByTraffic :=
              add_fuel (fuelCostByTraffic acc) (trafficLevel route) fuelCost;
            fuelCostByTraffic_undefined := fuelCostByTraffic_undefined acc |},
         Object
           {| orderId := orderId order; valueRs := valueRs order;
              assignedRoute := assignedRoute order;
              deliveryTimestamp := deliveryTimestamp order;
              assignedDriver := Some (_id driver);
              actualDeliveryTime := Some (inject_Z actualDeliveryTime);
              isOnTime := negb isLate;
              penalty := penalty;
              bonus := bonus |}
           fuelCost)
  | Inherited =>
      (* [route] is truthy; route.baseTime, route.distance and
         route.trafficLevel are undefined *)
      let driverIndex := Js.rem (inject_Z (Z.of_nat index)) availableDrivers in
      let assignedDriver := Js.index drivers driverIndex in
      (* actualDeliveryTime = Math.round(undefined), NaN: the helper reads
         isFatigued off [route], where it is undefined.
         isLate = NaN > undefined + 10, false: the else branch is taken *)
      let penalty := 0 in
      let bonus := if Js.gt (valueRs order) 1000 then valueRs order * (1 # 10) else 0 in
      (* fuelCost = 5 * undefined, NaN; orderProfit is NaN with it;
         fuelCostByTraffic[undefined] += NaN *)
      driver ← assignedDriver;   (* assignedDriver._id *)
      Some
        ({| totalProfit := Js.plus (totalProfit acc) Js.NaN;
            totalFuelCost := Js.plus (totalFuelCost acc) Js.NaN;
            totalPenalties := totalPenalties acc + penalty;
            totalBonuses := totalBonuses acc + bonus;
            onTimeDeliveries := S (onTimeDeliveries acc);
            fuelCostByTraffic := fuelCostByTraffic acc;
            fuelCostByTraffic_undefined := true |},
         Unpriced order (_id driver) bonus)
  end.

(** [orders.map((order, index) => ...)], from position [index] on. *)
Fixpoint mapOrders (acc : Totals) (index : nat) (orders : list Order)
  : option (Totals * list ProcessedOrder) :=
  match orders with
  | [] => Some (acc, [])
  | order :: rest =>
      '(acc1, processed) ← processOrder acc index order;
      '(acc2, others) ← mapOrders acc1 (S index) rest;
      Some (acc2, processed :: others)
  end.

End OrderProcessing.

(** ** The endpoint *)

(** What one request leaves behind: the response, the collections, the
    [drivers] array of fetched documents as it stands when the handler
    returns, and the local [processedOrders]. *)
Record Run : Type := {
  response : Response;
  database : Database;
  driver_docs : list Driver;
  processedOrders : list ProcessedOrder
}.

Definition round_entry (label : string) (cost : Q) : Entry :=
  (label, Js.Math_round cost).

(** The score of a report, from the on-time counter and [orders.length]:
    [Math.round(efficiencyScore * 100) / 100] with [efficiencyScore] being
    [orders.length > 0 ? (onTimeDeliveries / orders.length) * 100 : 0], every
    operation in binary64. The result is given by its exact value; [None]
    stands for a result that is not finite. *)
Definition efficiency_score (onTimeDeliveries length : nat) : option Q :=
  let efficiencyScore :=
    if (0 <? length)%nat
    then Double.mul
           (Double.div (Double.of_Z (Z.of_nat onTimeDeliveries))
                       (Double.of_Z (Z.of_nat length)))
           (Double.of_Z 100)
    else Double.of_Z 0 in
  rounded ← Double.Math_round (Double.mul efficiencyScore (Double.of_Z 100));
  Double.to_Q (Double.div (Double.of_Z rounded) (Double.of_Z 100)).

(** [new SimulationResult({ ..., deliveryBreakdown, fuelCostBreakdown })]: an
    entry [{ label, value }] is cast to the sub-document the schema
    declares, which has neither path, and nothing of the entry is kept. *)
Definition cast_delivery (entry : Entry) : DeliveryBreakdown.t :=
  {| DeliveryBreakdown.onTime := None; DeliveryBreakdown.late := None |}.

Definition cast_fuel (entry : Entry) : FuelCostBreakdown.t :=
  {| FuelCostBreakdown.routeType := None; FuelCostBreakdown.cost := None |}.

Section Endpoint.

(** Two services of the document store: [Driver.find().limit(n)], and the
    identifier given to a new [SimulationResult]. (A store that refuses a
    limit which is not a whole number makes the query throw; the [catch]
    clause then answers 500, as it does for any failure inside the
    handler.) *)
Variable limit : Q -> list Driver -> list Driver.
Variable new_id : Database -> ObjectId.

(** The handler once the loop over the orders is through: the figures, the
    two breakdowns, the stored run and the answer. A [NaN] among the figures
    is refused by the schema when the run is saved, and the handler answers
    from its [catch] clause. *)
Definition report (db : Database) (body : SimulationBody) (drivers : list Driver)
    (orders : list Order) (acc : Totals) (processed : list ProcessedOrder) : Run :=
  match Js.Math_round_number (totalProfit acc),
        efficiency_score (onTimeDeliveries acc) (length orders),
        Js.Math_round_number (totalFuelCost acc) with
  | Some totalProfit', Some efficiencyScore', Some fuelCost' =>
      let results :=
        {| Results.totalProfit := totalProfit';
           Results.efficiencyScore := efficiencyScore';
           Results.onTimeDeliveries := onTimeDeliveries acc;
           Results.totalDeliveries := length orders;
           Results.fuelCost := fuelCost';
           Results.penalties := totalPenalties acc;
           Results.bonuses := Js.Math_round (totalBonuses acc) |} in
      let deliveryBreakdown : list Entry :=
        [ ("On Time"%string, Z.of_nat (onTimeDeliveries acc));
          ("Late"%string,
           (Z.of_nat (length orders) - Z.of_nat (onTimeDeliveries acc))%Z) ] in
      (* Object.entries(fuelCostByTraffic): the key 'undefined' comes with a
         fuel total that is NaN, and is not among the keys here *)
      let fuelCostBreakdown : list Entry :=
        [ round_entry "Low Traffic" (fuelCostByTraffic acc Low);
          round_entry "Medium Traffic" (fuelCostByTraffic acc Medium);
          round_entry "High Traffic" (fuelCostByTraffic acc High) ] in
      let simulationResult :=
        {| sim_id := new_id db; inputs := body; results := results;
           deliveryBreakdown := map cast_delivery deliveryBreakdown;
           fuelCostBreakdown := map cast_fuel fuelCostBreakdown |} in
      {| response :=
           Json results deliveryBreakdown fuelCostBreakdown (sim_id simulationResult);
         database :=
           {| db_drivers := db_drivers db; db_routes := db_routes db;
              db_orders := db_orders db;
              db_simulations := db_simulations db ++ [simulationResult] |};
         driver_docs := drivers;
         processedOrders := processed |}
  | _, _, _ =>   (* simulationResult.save() rejects *)
      {| response := SimulationFailed;
         database := db; driver_docs := drivers; processedOrders := processed |}
  end.

(** The handler, from the three queries to the end of the loop. *)
Definition simulation (db : Database) (body : SimulationBody) (availableDrivers : Q)
  : Run :=
  let drivers := limit availableDrivers (db_drivers db) in
  let routes := db_routes db in
  let orders := db_orders db in
  if Js.lt (inject_Z (Z.of_nat (length drivers))) availableDrivers
  then {| response := Status 400 (NotEnoughDrivers (length drivers) availableDrivers);
          database := db; driver_docs := drivers; processedOrders := [] |}
  else
    let drivers := map checkFatigue drivers in
    let routeMap := make_routeMap routes in
    match mapOrders availableDrivers drivers routeMap initial_totals 0 orders with
    | None =>   (* a TypeError inside the loop: no array comes out of it *)
        {| response := SimulationFailed;
           database := db; driver_docs := drivers; processedOrders := [] |}
    | Some (acc, processed) => report db body drivers orders acc processed
    end.

(** [app.post('/api/simulation', authenticateToken, validateSimulationInputs,
    handler)], after the token check. *)
Definition post_simulation (db : Database) (body : SimulationBody) : Run :=
  match validateSimulationInputs body with
  | Respond r =>
      {| response := r; database := db; driver_docs := []; processedOrders := [] |}
  | Next =>
      match availableDrivers body with
      | Some n => simulation db body n
      | None =>   (* not reached: the validator answers such a request itself *)
          {| response := SimulationFailed;
             database := db; driver_docs := []; processedOrders := [] |}
      end
  end.

End Endpoint.

(** ** A store to run the endpoint on, and sample data *)

(** A store whose [limit] keeps the whole part of the count, and which
    numbers the stored runs in sequence. *)
Definition limit_whole (n : Q) (l : list Driver) : list Driver :=
  take (Z.to_nat (Qfloor n)) l.
Definition next_id (db : Database) : ObjectId :=
  N.of_nat (length (db_simulations db)).

Definition new_driver (id : ObjectId) (n : string) (shift week : Q) : Driver :=
  {| _id := id; name := n; currentShiftHours := shift;
     past7DayWorkHours := week; isFatigued := false |}.

Definition new_route (id : string) (d : Q) (t : TrafficLevel) (b : Q) : Route :=
  {| routeId := id; distance := d; trafficLevel := t; baseTime := b |}.

Definition new_order (id : string) (v : Q) (r : string) : Order :=
  {| orderId := id; valueRs := v; assignedRoute := r; deliveryTimestamp := 0;
     assignedDriver := None; actualDeliveryTime := None; isOnTime := true;
     penalty := 0; bonus := 0 |}.

(** The data set of [/api/init-data]. *)
Definition sample_db : Database :=
  {| db_drivers :=
       [ new_driver 1%N "Raj Kumar" 6 45; new_driver 2%N "Priya Singh" 4 32;
         new_driver 3%N "Amit Shah" 9 52; new_driver 4%N "Neha Gupta" 7 38;
         new_driver 5%N "Vikram Yadav" 5 28 ];
     db_routes :=
       [ new_route "RT001" 15 Low 45; new_route "RT002" 25 High 80;
         new_route "RT003" 12 Medium 35; new_route "RT004" 30 High 95;
         new_route "RT005" 8 Low 25 ];
     db_orders :=
       [ new_order "ORD001" 1200 "RT001"; new_order "ORD002" 850 "RT002";
         new_order "ORD003" 1500 "RT003"; new_order "ORD004" 750 "RT004";
         new_order "ORD005" 2000 "RT005"; new_order "ORD006" 950 "RT001";
         new_order "ORD007" 1800 "RT002"; new_order "ORD008" 650 "RT003" ];
     db_simulations := [] |}.

Definition request (n : Q) (t : string) (h : Q) : SimulationBody :=
  {| availableDrivers := Some n; startTime := Some t; maxHoursPerDay := Some h |}.

(** One tired driver, the route of the written scenario, one order on it. *)
Definition tired_db : Database :=
  {| db_drivers := [ new_driver 1%N "Amit Shah" 9 52 ];
     db_routes := [ new_route "RT100" 10 High 30 ];
     db_orders := [ new_order "ORD100" 900 "RT100" ];
     db_simulations := [] |}.

(** One driver, and one order that names a route the catalog lacks. *)
Definition dangling_db : Database :=
  {| db_drivers := [ new_driver 1%N "Raj Kumar" 6 45 ];
     db_routes := [ new_route "RT001" 15 Low 45 ];
     db_orders := [ new_order "ORD900" 1200 "RT999" ];
     db_simulations := [] |}.


(** Two drivers, the second one tired; three orders, the middle one
    dangling. *)
Definition mixed_db : Database :=
  {| db_drivers := [ new_driver 1%N "Raj Kumar" 6 45; new_driver 3%N "Amit Shah" 9 52 ];
     db_routes := [ new_route "RT001" 15 Low 45; new_route "RT003" 12 Medium 35 ];
     db_orders :=
       [ new_order "ORD001" 1200 "RT001"; new_order "ORD900" 700 "RT999";
         new_order "ORD003" 1500 "RT003" ];
     db_simulations := [] |}.

(** One driver, one route, and one order that names a member every object
    has rather than a route. *)
Definition inherited_db : Database :=
  {| db_drivers := [ new_driver 1%N "Raj Kumar" 6 45 ];
     db_routes := [ new_route "RT001" 15 Low 45 ];
     db_orders := [ new_order "ORD901" 1200 "constructor" ];
     db_simulations := [] |}.

(** A batch of [n] orders on one route, numbered from [first] on. *)
Fixpoint numbered_orders (first n : nat) (route : string) : list Order :=
  match n with
  | O => []
  | S n' =>
      new_order ("ORD" +:+ NilEmpty.string_of_uint (Nat.to_uint first)) 500 route
      :: numbered_orders (S first) n' route
  end.

(** One driver, one route, 160 orders: 23 of them on the route, 137 on a
    route the catalog lacks. *)
Definition score_db : Database :=
  {| db_drivers := [ new_driver 1%N "Raj Kumar" 6 45 ];
     db_routes := [ new_route "RT001" 15 Low 45 ];
     db_orders := numbered_orders 1 23 "RT001" ++ numbered_orders 24 137 "RT999";
     db_simulations := [] |}.

(** ** The token check *)

(** [s.split(' ')] *)
Fixpoint split_space (s : string) : list string :=
  match s with
  | EmptyString => [EmptyString]
  | String c t =>
      if Ascii.eqb c " " then EmptyString :: split_space t
      else match split_space t with
           | piece :: pieces => String c piece :: pieces
           | [] => [String c EmptyString]
           end
  end.

Definition AccessTokenRequired : Response :=
  Status 401 (Text "Access token required").
Definition InvalidToken : Response :=
  Status 403 (Text "Invalid or expired token").

Section Auth.

(** [jwt.verify(token, secret, callback)]: [true] when the callback gets no
    error. The payload it stores in [req.user] is read nowhere. *)
Variable jwt_verify : string -> bool.

(** The argument is [req.headers['authorization']]. *)
Definition authenticateToken (authHeader : option string) : Middleware :=
  let token :=   (* authHeader && authHeader.split(' ')[1] *)
    match authHeader with
    | Some header =>
        if Js.truthy_string header then split_space header !! 1%nat else Some header
    | None => None
    end in
  match token with
  | Some token =>
      if negb (Js.truthy_string token) then Respond AccessTokenRequired
      else if jwt_verify token then Next
      else Respond InvalidToken
  | None => Respond AccessTokenRequired
  end.

Section Guarded.

Variable limit : Q -> list Driver -> list Driver.
Variable new_id : Database -> ObjectId.

(** [POST /api/simulation], the token check included. *)
Definition api_simulation (authHeader : option string) (db : Database)
    (body : SimulationBody) : Run :=
  match authenticateToken authHeader with
  | Respond r =>
      {| response := r; database := db; driver_docs := []; processedOrders := [] |}
  | Next => post_simulation limit new_id db body
  end.

End Guarded.

End Auth.

(** ** The routes that fill the collections (after the token check) *)

(** An answer that carries a document, or an error. *)
Inductive Reply (A : Type) : Type :=
| Sent (code : nat) (doc : A)              (* res.status(code).json(doc) *)
| Refused (code : nat) (error : string).   (* res.status(code).json({ error }) *)

Arguments Sent {A} code doc.
Arguments Refused {A} code error.

Module NewRoute.
Record t : Type := {
  routeId : option string;
  distance : option Q;
  trafficLevel : option string;
  baseTime : option Q
}.
End NewRoute.

Module NewOrder.
Record t : Type := {
  orderId : option string;
  valueRs : option Q;
  assignedRoute : option string;
  deliveryTimestamp : option Z
}.
End NewOrder.

Module NewDriver.
Record t : Type := {
  name : option string;
  currentShiftHours : option Q;
  past7DayWorkHours : option Q
}.
End NewDriver.

(** The [enum] of the route schema. *)
Definition TrafficLevel_of_string (s : string) : option TrafficLevel :=
  if String.eqb s "Low" then Some Low
  else if String.eqb s "Medium" then Some Medium
  else if String.eqb s "High" then Some High
  else None.

Definition with_routes (db : Database) (routes : list Route) : Database :=
  {| db_drivers := db_drivers db; db_routes := routes;
     db_orders := db_orders db; db_simulations := db_simulations db |}.

Definition with_orders (db : Database) (orders : list Order) : Database :=
  {| db_drivers := db_drivers db; db_routes := db_routes db;
     db_orders := orders; db_simulations := db_simulations db |}.

Definition with_drivers (db : Database) (drivers : list Driver) : Database :=
  {| db_drivers := drivers; db_routes := db_routes db;
     db_orders := db_orders db; db_simulations := db_simulations db |}.

(** [POST /api/routes]. Saving validates the document against the schema
    (an error other than 11000, hence 500) and then inserts it under the
    unique index on [routeId] (error 11000 on a duplicate). *)
Definition post_routes (db : Database) (body : NewRoute.t) : Reply Route * Database :=
  match NewRoute.routeId body, NewRoute.distance body,
        NewRoute.trafficLevel body, NewRoute.baseTime body with
  | Some routeId', Some distance', Some trafficLevel', Some baseTime' =>
      if negb (Js.truthy_string routeId') || negb (Js.truthy distance')
         || negb (Js.truthy_string trafficLevel') || negb (Js.truthy baseTime')
      then (Refused 400 "All fields required: routeId, distance, trafficLevel, baseTime", db)
      else
        match TrafficLevel_of_string trafficLevel' with
        | None => (Refused 500 "Failed to create route", db)
        | Some level =>
            let route :=
              {| routeId := routeId'; distance := distance';
                 trafficLevel := level; baseTime := baseTime' |} in
            if existsb (fun r => String.eqb (routeId r) routeId') (db_routes db)
            then (Refused 400 "Route ID already exists", db)
            else (Sent 201 route, with_routes db (db_routes db ++ [route]))
        end
  | _, _, _, _ =>
      (Refused 400 "All fields required: routeId, distance, trafficLevel, baseTime", db)
  end.

(** The dates a [Date] can hold, in milliseconds; casting a number outside
    gives an invalid date, which the schema refuses. *)
Definition valid_date (t : Z) : bool := (Z.abs t <=? 8640000000000000)%Z.

(** [POST /api/orders]; the date is sent as a number of milliseconds. Saving
    validates the document (an error other than 11000, hence 500) and then
    inserts it under the unique index on [orderId]. *)
Definition post_orders (db : Database) (body : NewOrder.t) : Reply Order * Database :=
  match NewOrder.orderId body, NewOrder.valueRs body,
        NewOrder.assignedRoute body, NewOrder.deliveryTimestamp body with
  | Some orderId', Some valueRs', Some assignedRoute', Some deliveryTimestamp' =>
      if negb (Js.truthy_string orderId') || negb (Js.truthy valueRs')
         || negb (Js.truthy_string assignedRoute') || (deliveryTimestamp' =? 0)%Z
      then (Refused 400 "All fields required: orderId, valueRs, assignedRoute, deliveryTimestamp", db)
      else if negb (valid_date deliveryTimestamp')
      then (Refused 500 "Failed to create order", db)
      else
        let order :=
          {| orderId := orderId'; valueRs := valueRs';
             assignedRoute := assignedRoute';
             deliveryTimestamp := deliveryTimestamp';
             assignedDriver := None; actualDeliveryTime := None;
             isOnTime := true; penalty := 0; bonus := 0 |} in
        if existsb (fun o => String.eqb (orderId o) orderId') (db_orders db)
        then (Refused 400 "Order ID already exists", db)
        else (Sent 201 order, with_orders db (db_orders db ++ [order]))
  | _, _, _, _ =>
      (Refused 400 "All fields required: orderId, valueRs, assignedRoute, deliveryTimestamp", db)
  end.

(** [x || 0] on a number that may be absent. *)
Definition or_zero (x : option Q) : Q :=
  match x with
  | Some q => if Js.truthy q then q else 0
  | None => 0
  end.

(** [Model.findByIdAndDelete(id)] on the drivers: the document goes, the
    others stay in their order. *)
Fixpoint findByIdAndDelete (id : ObjectId) (docs : list Driver)
  : option Driver * list Driver :=
  match docs with
  | [] => (None, [])
  | d :: rest =>
      if (_id d =? id)%N then (Some d, rest)
      else let '(found, rest') := findByIdAndDelete id rest in (found, d :: rest')
  end.

Section Roster.

(** The identifier the store gives a new driver document. *)
Variable new_driver_id : Database -> ObjectId.

(** [POST /api/drivers] *)
Definition post_drivers (db : Database) (body : NewDriver.t) : Reply Driver * Database :=
  match NewDriver.name body with
  | Some name' =>
      if negb (Js.truthy_string name') then (Refused 400 "Driver name is required", db)
      else
        let driver :=
          {| _id := new_driver_id db; name := name';
             currentShiftHours := or_zero (NewDriver.currentShiftHours body);
             past7DayWorkHours := or_zero (NewDriver.past7DayWorkHours body);
             isFatigued := false |} in
        (Sent 201 driver, with_drivers db (db_drivers db ++ [driver]))
  | None => (Refused 400 "Driver name is required", db)
  end.

End Roster.

(** [DELETE /api/drivers/:id] *)
Definition delete_drivers (db : Database) (id : ObjectId) : Reply string * Database :=
  match findByIdAndDelete id (db_drivers db) with
  | (None, _) => (Refused 404 "Driver not found", db)
  | (Some _, rest) => (Sent 200 "Driver deleted successfully"%string, with_drivers db rest)
  end.

(** [POST /api/init-data]: the three collections are emptied and filled with
    the sample set; [id_of] numbers the new driver documents and [date_of]
    gives the [new Date()] of each sample order. The stored runs are not
    touched. *)
Definition sampleDrivers (id_of : nat -> ObjectId) : list Driver :=
  [ new_driver (id_of 0%nat) "Raj Kumar" 6 45; new_driver (id_of 1%nat) "Priya Singh" 4 32;
    new_driver (id_of 2%nat) "Amit Shah" 9 52; new_driver (id_of 3%nat) "Neha Gupta" 7 38;
    new_driver (id_of 4%nat) "Vikram Yadav" 5 28 ].

Definition dated (date_of : nat -> Z) (i : nat) (order : Order) : Order :=
  {| orderId := orderId order; valueRs := valueRs order;
     assignedRoute := assignedRoute order; deliveryTimestamp := date_of i;
     assignedDriver := assignedDriver order;
     actualDeliveryTime := actualDeliveryTime order;
     isOnTime := isOnTime order; penalty := penalty order; bonus := bonus order |}.

Definition init_data (id_of : nat -> ObjectId) (date_of : nat -> Z) (db : Database)
  : Database :=
  {| db_drivers := sampleDrivers id_of;
     db_routes := db_routes sample_db;
     db_orders := imap (dated date_of) (db_orders sample_db);
     db_simulations := db_simulations db |}.

(** A new order document, dated. *)
Definition new_order_at (t : Z) (id : string) (v : Q) (r : string) : Order :=
  {| orderId := id; valueRs := v; assignedRoute := r; deliveryTimestamp := t;
     assignedDriver := None; actualDeliveryTime := None; isOnTime := true;
     penalty := 0; bonus := 0 |}.

(** A verifier for the examples: one token is good. *)
Definition sample_verify (token : string) : bool := String.eqb token "good".

(** Two request bodies for the examples. *)
Definition route_RT006 : NewRoute.t :=
  {| NewRoute.routeId := Some "RT006"%string; NewRoute.distance := Some 20;
     NewRoute.trafficLevel := Some "Medium"%string; NewRoute.baseTime := Some 60 |}.

Definition order_ORD009 : NewOrder.t :=
  {| NewOrder.orderId := Some "ORD009"%string; NewOrder.valueRs := Some 400;
     NewOrder.assignedRoute := Some "RT404"%string;
     NewOrder.deliveryTimestamp := Some 1700000000000%Z |}.


(** No space in a string. *)
Fixpoint no_space (s : string) : bool :=
  match s with
  | EmptyString => true
  | String c t => negb (Ascii.eqb c " ") && no_space t
  end.

(** ** Notions of the written specification *)

(** The route an identifier stands for: the last one of the catalog that
    carries it. *)
Fixpoint catalog_route (routes : list Route) (id : string) : option Route :=
  match routes with
  | [] => None
  | route :: rest =>
      match catalog_route rest id with
      | Some later => Some later
      | None => if String.eqb (routeId route) id then Some route else None
      end
  end.

(** An order resolves when its [assignedRoute] is the [routeId] of a route
    of the catalog. *)
Definition resolves (routes : list Route) (order : Order) : bool :=
  existsb (fun route => String.eqb (routeId route) (assignedRoute order)) routes.

(** How many orders of a batch resolve. *)
Definition resolved_count (routes : list Route) (orders : list Order) : nat :=
  length (List.filter (resolves routes) orders).

(** How many do not. *)
Definition unresolved_count (routes : list Route) (orders : list Order) : nat :=
  length (List.filter (fun order => negb (resolves routes order)) orders).

(** An order that does not resolve, yet names a member every object has. *)
Definition names_inherited (routes : list Route) (order : Order) : bool :=
  negb (resolves routes order) && inherited (assignedRoute order).

Definition inherited_count (routes : list Route) (orders : list Order) : nat :=
  length (List.filter (names_inherited routes) orders).

(** A catalog without a route named [__proto__]. *)
Definition plain_catalog (routes : list Route) : bool :=
  negb (existsb (fun route => String.eqb (routeId route) "__proto__") routes).

(** The share of the on-time orders in a batch, in per cent. *)
Definition percentage (onTime total : nat) : Q :=
  inject_Z (Z.of_nat onTime) / inject_Z (Z.of_nat total) * 100.

(** The JavaScript number that stands for [k] hundredths. *)
Definition hundredths (k : Z) : option Q :=
  Double.to_Q (Double.div (Double.of_Z k) (Double.of_Z 100)).

(** [y] is [x] rounded to two decimal places, as a JavaScript number: the
    double of the nearest hundredth, a tie going up. *)
Definition rounded_to_2_places (x y : Q) : Prop :=
  exists k : Z,
    x - (1 # 200) < inject_Z k / 100 /\ inject_Z k / 100 <= x + (1 # 200)
    /\ exists y', hundredths k = Some y' /\ y == y'.

(** The same with a tie going either way: the double of a hundredth that is
    at most half a hundredth away from [x]. *)
Definition nearest_hundredth (x y : Q) : Prop :=
  exists k : Z,
    x - (1 # 200) <= inject_Z k / 100 /\ inject_Z k / 100 <= x + (1 # 200)
    /\ exists y', hundredths k = Some y' /\ y == y'.

(** The whole number of hundredths the handler arrives at for [onTime]
    orders of [total], before its last division by 100. *)
Definition score_hundredths (onTime total : nat) : option Z :=
  Double.Math_round
    (Double.mul
       (Double.mul
          (Double.div (Double.of_Z (Z.of_nat onTime)) (Double.of_Z (Z.of_nat total)))
          (Double.of_Z 100))
       (Double.of_Z 100)).

(** Whether that number of hundredths is at most half a hundredth away from
    the exact share, and a JavaScript number. *)
Definition within_half_hundredth (onTime total : nat) : bool :=
  match score_hundredths onTime total with
  | Some k =>
      Qle_bool (percentage onTime total - (1 # 200)) (inject_Z k / 100)
      && Qle_bool (inject_Z k / 100) (percentage onTime total + (1 # 200))
      && match hundredths k with Some _ => true | None => false end
  | None => false
  end.

(** A test on every count of on-time orders, for every batch of one to
    [bound] orders. *)
Definition all_batches (bound : nat) (f : nat -> nat -> bool) : bool :=
  forallb (fun total => forallb (fun onTime => f onTime (S total)) (seq 0 (S (S total))))
          (seq 0 bound).

(** Order values and route distances of at most 10^12 in size: figures that
    the binary64 sums of the handler keep finite, for any batch that a
    store can hold. *)
Definition modest_figures (db : Database) : bool :=
  forallb (fun order => Qle_bool (Qabs (valueRs order)) 1000000000000) (db_orders db)
  && forallb (fun route => Qle_bool (Qabs (distance route)) 1000000000000) (db_routes db).

(** The outcome of one order as the specification words it for a run in
    which nobody is late: an order that resolves comes back as a new object,
    on time, without penalty, delivered in the rounded base time of its
    route; one that does not comes back as it is, unless it names a member
    every object has. *)
Definition classified_on_time (routes : list Route) (order : Order)
    (p : ProcessedOrder) : Prop :=
  match catalog_route routes (assignedRoute order) with
  | Some route =>
      exists fields cost,
        p = Object fields cost
        /\ actualDeliveryTime fields = Some (inject_Z (Js.Math_round (baseTime route)))
        /\ isOnTime fields = true
        /\ penalty fields = 0
  | None => inherited (assignedRoute order) = false -> p = Document order
  end.

(** A driver document before and after the fatigue check: every field as it
    was, but for the flag. *)
Definition fatigue_overwritten (before after : Driver) : Prop :=
  _id after = _id before /\ name after = name before
  /\ currentShiftHours after = currentShiftHours before
  /\ past7DayWorkHours after = past7DayWorkHours before
  /\ isFatigued after = Js.gt (currentShiftHours before) 8.

(** An element of [processedOrders] next to the order it comes from: the
    document itself, or a new object that carries the order's own fields. *)
Definition projection_of (order : Order) (p : ProcessedOrder) : Prop :=
  p = Document order
  \/ exists fields cost,
       p = Object fields cost
       /\ orderId fields = orderId order /\ valueRs fields = valueRs order
       /\ assignedRoute fields = assignedRoute order
       /\ deliveryTimestamp fields = deliveryTimestamp order.

(** * Properties *)

(** ** Comparisons and rounding *)

Lemma lt_true_iff (a b : Q) : Js.lt a b = true <-> a < b.
Proof.
  unfold Js.lt. rewrite negb_true_iff, <- not_true_iff_false, Qle_bool_iff.
  split; [apply Qnot_le_lt | apply Qlt_not_le].
Qed.

Lemma lt_false_iff (a b : Q) : Js.lt a b = false <-> b <= a.
Proof. unfold Js.lt. rewrite negb_false_iff. apply Qle_bool_iff. Qed.

Lemma gt_true_iff (a b : Q) : Js.gt a b = true <-> b < a.
Proof. apply lt_true_iff. Qed.

Lemma gt_false_iff (a b : Q) : Js.gt a b = false <-> a <= b.
Proof. apply lt_false_iff. Qed.

Lemma truthy_true_iff (x : Q) : Js.truthy x = true <-> ~ x == 0.
Proof.
  unfold Js.truthy. rewrite negb_true_iff, <- not_true_iff_false, Qeq_bool_iff.
  reflexivity.
Qed.

Lemma Math_round_upper (x : Q) : inject_Z (Js.Math_round x) <= x + (1 # 2).
Proof. apply Qfloor_le. Qed.

Lemma Math_round_lower (x : Q) : x - (1 # 2) < inject_Z (Js.Math_round x).
Proof.
  pose proof (Qlt_floor (x + (1 # 2))) as H.
  rewrite inject_Z_plus in H. change (inject_Z 1) with 1 in H.
  fold (Js.Math_round x) in H.
  revert H. generalize (inject_Z (Js.Math_round x)). intros r H. lra.
Qed.

(** A rounded base time is never past the ten-minute grace. *)
Lemma Math_round_within_grace (b : Q) :
  Js.gt (inject_Z (Js.Math_round b)) (b + 10) = false.
Proof.
  apply gt_false_iff. pose proof (Math_round_upper b) as H.
  revert H. generalize (inject_Z (Js.Math_round b)). intros r H. lra.
Qed.

(** ** The time pattern *)

Lemma search_anchored (r : regex) (s : string) (pos : nat) :
  pos <> 0%nat -> search (Seq Bol r) pos s = false.
Proof.
  revert pos. induction s as [|c s IH]; intros pos Hpos; simpl.
  - destruct pos; [congruence | reflexivity].
  - rewrite IH by lia. destruct pos; [congruence | reflexivity].
Qed.

Lemma test_anchored (r : regex) (s : string) :
  test (Seq Bol r) s = run r 0 s (fun _ _ => true).
Proof.
  unfold test. destruct s as [|c s]; simpl.
  - apply orb_false_r.
  - rewrite search_anchored by lia. apply orb_false_r.
Qed.

Lemma in_range_iff (lo hi c : ascii) :
  in_range lo hi c = true
  <-> (N_of_ascii lo <= N_of_ascii c /\ N_of_ascii c <= N_of_ascii hi)%N.
Proof. unfold in_range. rewrite andb_true_iff, !N.leb_le. reflexivity. Qed.

Lemma ascii_eqb_iff (a c : ascii) : Ascii.eqb a c = true <-> N_of_ascii a = N_of_ascii c.
Proof.
  rewrite Ascii.eqb_eq. split; [congruence |].
  intros H. rewrite <- (ascii_N_embedding a), <- (ascii_N_embedding c). congruence.
Qed.

Ltac to_prop :=
  unfold minutes_ok, is_digit, digit_value;
  repeat first [ rewrite andb_true_iff | rewrite orb_true_iff
               | rewrite in_range_iff | rewrite ascii_eqb_iff | rewrite N.leb_le ];
  change (N_of_ascii "0") with 48%N; change (N_of_ascii "1") with 49%N;
  change (N_of_ascii "2") with 50%N; change (N_of_ascii "3") with 51%N;
  change (N_of_ascii "5") with 53%N; change (N_of_ascii "9") with 57%N;
  change (N_of_ascii ":") with 58%N.

(** The pattern accepts the two-digit and the one-digit hour. *)
Lemma timeRegex_accepts (s : string) :
  test timeRegex s = is_HH_MM s || is_H_MM s.
Proof.
  unfold timeRegex. rewrite test_anchored.
  apply eq_true_iff_eq.
  destruct s as [|c1 [|c2 [|c3 [|c4 [|c5 [|c6 s]]]]]]; cbn [run is_HH_MM is_H_MM];
    to_prop; try (intuition (try discriminate; try lia)).
Qed.

Lemma timeRegex_rejects_empty : test timeRegex "" = false.
Proof. reflexivity. Qed.

(** ** Validation *)

(** With the three fields present and truthy, the verdict is that of the
    range checks and of the pattern, in this order. *)
Lemma validate_present (a : Q) (s : string) (h : Q) :
  ~ a == 0 -> s <> ""%string -> ~ h == 0 ->
  validateSimulationInputs (request a s h) =
    if Js.lt a 1 || Js.gt a 50 then Respond DriverCountOutOfRange
    else if Js.lt h 1 || Js.gt h 24 then Respond HoursOutOfRange
    else if negb (test timeRegex s) then Respond BadTimeFormat
    else Next.
Proof.
  intros Ha Hs Hh. unfold validateSimulationInputs, request; cbn [availableDrivers startTime maxHoursPerDay].
  apply truthy_true_iff in Ha, Hh. rewrite Ha, Hh.
  destruct s; [congruence | reflexivity].
Qed.

Lemma at_least_one_nonzero (x : Q) : 1 <= x -> ~ x == 0.
Proof. intros H E. lra. Qed.

Lemma in_bounds_iff (x lo hi : Q) :
  Js.lt x lo || Js.gt x hi = false <-> lo <= x /\ x <= hi.
Proof. rewrite orb_false_iff, lt_false_iff, gt_false_iff. reflexivity. Qed.

Lemma out_of_bounds_iff (x lo hi : Q) :
  Js.lt x lo || Js.gt x hi = true <-> x < lo \/ hi < x.
Proof. rewrite orb_true_iff, lt_true_iff, gt_true_iff. reflexivity. Qed.

(** The validator lets a request through exactly when the three fields are
    there, the two counts lie in their ranges and the time fits the pattern;
    nothing else is looked at. *)
Lemma validate_next_iff (body : SimulationBody) :
  validateSimulationInputs body = Next
  <-> exists a s h,
        body = request a s h /\ (1 <= a /\ a <= 50) /\ (1 <= h /\ h <= 24)
        /\ test timeRegex s = true.
Proof.
  split.
  - destruct body as [[a|] [s|] [h|]]; unfold validateSimulationInputs;
      cbn [availableDrivers startTime maxHoursPerDay]; try discriminate.
    destruct (negb (Js.truthy a) || negb (Js.truthy_string s) || negb (Js.truthy h));
      [discriminate |].
    destruct (Js.lt a 1 || Js.gt a 50) eqn:Ea; [discriminate |].
    destruct (Js.lt h 1 || Js.gt h 24) eqn:Eh; [discriminate |].
    destruct (test timeRegex s) eqn:Es; [| discriminate].
    intros _. exists a, s, h. apply in_bounds_iff in Ea, Eh. auto.
  - intros (a & s & h & -> & Ha & Hh & Hs).
    rewrite validate_present.
    + apply in_bounds_iff in Ha, Hh. rewrite Ha, Hh, Hs. reflexivity.
    + apply at_least_one_nonzero, Ha.
    + intros ->. discriminate Hs.
    + apply at_least_one_nonzero, Hh.
Qed.

(** C4, as amended: when the three fields are present (a non-zero driver
    count, a non-empty start time, a non-zero hour count) and the driver
    count lies outside [1,50], validation answers with the driver-count
    error, whatever the start time and the hour count are. *)
Theorem driver_count_out_of_range (a : Q) (s : string) (h : Q) :
  ~ a == 0 -> s <> ""%string -> ~ h == 0 ->
  a < 1 \/ 50 < a ->
  validateSimulationInputs (request a s h) = Respond DriverCountOutOfRange.
Proof.
  intros Ha Hs Hh Hout. rewrite validate_present by assumption.
  apply out_of_bounds_iff in Hout. rewrite Hout. reflexivity.
Qed.

(** C5, as amended: with the driver and hour counts in range and a non-empty
    start time, validation answers with the time-format error exactly when
    the start time is neither an HH:MM time (hours 00 to 23) nor an H:MM time
    (hours 0 to 9), minutes 00 to 59. *)
Theorem bad_time_format_iff (a : Q) (s : string) (h : Q) :
  1 <= a /\ a <= 50 -> 1 <= h /\ h <= 24 -> s <> ""%string ->
  (validateSimulationInputs (request a s h) = Respond BadTimeFormat
   <-> is_HH_MM s || is_H_MM s = false).
Proof.
  intros Ha Hh Hs. rewrite validate_present.
  - apply in_bounds_iff in Ha, Hh. rewrite Ha, Hh, timeRegex_accepts.
    destruct (is_HH_MM s || is_H_MM s); cbn; split; congruence.
  - apply at_least_one_nonzero, Ha.
  - assumption.
  - apply at_least_one_nonzero, Hh.
Qed.

(** ** Fuel cost *)

Lemma calculateFuelCost_monotone (r r' : Route) :
  trafficLevel r = trafficLevel r' -> distance r <= distance r' ->
  calculateFuelCost r <= calculateFuelCost r'.
Proof.
  unfold calculateFuelCost. intros <- Hd.
  destruct (trafficLevel r); lra.
Qed.

(** C9: the fuel cost of a route is five times its distance, with two times
    the distance on top exactly when the traffic is High; so at a fixed
    traffic level it never decreases as the distance grows, and the cost at
    High is the cost at Low plus twice the distance. *)
Theorem fuel_cost_by_distance_and_traffic :
  (forall r : Route,
     calculateFuelCost r ==
       5 * distance r
       + match trafficLevel r with High => 2 * distance r | _ => 0 end)
  /\ (forall r r' : Route,
        trafficLevel r = trafficLevel r' -> distance r <= distance r' ->
        calculateFuelCost r <= calculateFuelCost r')
  /\ (forall (i i' : string) (d b b' : Q),
        calculateFuelCost (new_route i d High b)
        == calculateFuelCost (new_route i' d Low b') + 2 * d).
Proof.
  split; [| split].
  - intros r. unfold calculateFuelCost. destruct (trafficLevel r); lra.
  - apply calculateFuelCost_monotone.
  - intros. unfold calculateFuelCost, new_route; cbn [distance trafficLevel]. lra.
Qed.


(** ** The route lookup *)

Lemma catalog_route_None (routes : list Route) (k : string) :
  catalog_route routes k = None
  <-> existsb (fun route => String.eqb (routeId route) k) routes = false.
Proof.
  induction routes as [|r routes IH]; cbn [catalog_route existsb].
  - split; reflexivity.
  - rewrite orb_false_iff, <- IH.
    destruct (catalog_route routes k), (String.eqb (routeId r) k);
      split; try discriminate; try (intros [? ?]; discriminate); auto.
Qed.

Lemma catalog_route_Some (routes : list Route) (k : string) (route : Route) :
  catalog_route routes k = Some route -> In route routes /\ routeId route = k.
Proof.
  induction routes as [|r routes IH]; cbn [catalog_route]; [discriminate |].
  destruct (catalog_route routes k) as [later|].
  - intros [= <-]. destruct (IH eq_refl) as [Hin Hid]. split; [right |]; assumption.
  - destruct (String.eqb_spec (routeId r) k) as [E | E]; [| discriminate].
    intros [= <-]. split; [left; reflexivity | exact E].
Qed.

(** An order resolves exactly when the catalog has a route for it. *)
Lemma resolves_catalog (routes : list Route) (order : Order) :
  resolves routes order
  = match catalog_route routes (assignedRoute order) with
    | Some _ => true
    | None => false
    end.
Proof.
  unfold resolves.
  destruct (catalog_route routes (assignedRoute order)) as [route|] eqn:E.
  - destruct (existsb _ routes) eqn:Ex; [reflexivity |].
    apply catalog_route_None in Ex. congruence.
  - apply catalog_route_None, E.
Qed.

Lemma fold_routeMap_own (routes : list Route) (m : RouteMap) (k : string) :
  k <> "__proto__"%string ->
  own (fold_left routeMap_set routes m) !! k
  = match catalog_route routes k with
    | Some route => Some route
    | None => own m !! k
    end.
Proof.
  intros Hk. revert m. induction routes as [|r routes IH]; intros m; [reflexivity |].
  cbn [fold_left catalog_route]. rewrite IH.
  destruct (catalog_route routes k) as [later|]; [reflexivity |].
  unfold routeMap_set.
  destruct (String.eqb_spec (routeId r) "__proto__") as [Ep | Ep]; cbn [own].
  - destruct (String.eqb_spec (routeId r) k) as [E | E]; [congruence | reflexivity].
  - destruct (String.eqb_spec (routeId r) k) as [<- | E].
    + apply lookup_insert_eq.
    + apply lookup_insert_ne, E.
Qed.

Lemma fold_routeMap_own_proto (routes : list Route) (m : RouteMap) :
  own (fold_left routeMap_set routes m) !! "__proto__"%string
  = own m !! "__proto__"%string.
Proof.
  revert m. induction routes as [|r routes IH]; intros m; [reflexivity |].
  cbn [fold_left]. rewrite IH. unfold routeMap_set.
  destruct (String.eqb_spec (routeId r) "__proto__") as [Ep | Ep]; cbn [own].
  - reflexivity.
  - apply lookup_insert_ne, Ep.
Qed.

Lemma fold_routeMap_prototype (routes : list Route) (m : RouteMap) :
  prototype (fold_left routeMap_set routes m)
  = match catalog_route routes "__proto__" with
    | Some route => Some route
    | None => prototype m
    end.
Proof.
  revert m. induction routes as [|r routes IH]; intros m; [reflexivity |].
  cbn [fold_left catalog_route]. rewrite IH.
  destruct (catalog_route routes "__proto__") as [later|]; [reflexivity |].
  unfold routeMap_set. destruct (String.eqb (routeId r) "__proto__"); reflexivity.
Qed.

(** The table answers with the last route of the catalog that carries the
    name; for a name no route carries, it answers with what every object
    inherits, if the name is one of those. *)
Lemma routeMap_get_catalog (routes : list Route) (k : string) :
  routeMap_get (make_routeMap routes) k
  = match catalog_route routes k with
    | Some route => Resolved route
    | None => if inherited k then Inherited else NoMember
    end.
Proof.
  unfold routeMap_get, make_routeMap.
  destruct (String.eqb_spec k "__proto__") as [-> | Hk].
  - rewrite fold_routeMap_own_proto, fold_routeMap_prototype.
    cbn [empty_object own prototype]. rewrite lookup_empty.
    destruct (catalog_route routes "__proto__"); reflexivity.
  - rewrite fold_routeMap_own by exact Hk. cbn [empty_object own].
    rewrite lookup_empty. destruct (catalog_route routes k); reflexivity.
Qed.

Lemma names_inherited_catalog (routes : list Route) (order : Order) :
  names_inherited routes order
  = match catalog_route routes (assignedRoute order) with
    | Some _ => false
    | None => inherited (assignedRoute order)
    end.
Proof.
  unfold names_inherited. rewrite resolves_catalog.
  destruct (catalog_route routes (assignedRoute order)); reflexivity.
Qed.

(** ** Driver selection *)

Lemma Qred_inject_Z (k : Z) : Qred (inject_Z k) = inject_Z k.
Proof. apply Qred_identity. apply Z.gcd_1_r. Qed.

(** On whole numbers [%] is the remainder of the integer division. *)
Lemma rem_whole (i n : Z) :
  (0 <= i)%Z -> (0 < n)%Z ->
  exists q, Js.rem (inject_Z i) (inject_Z n) = Some q /\ q == inject_Z (i mod n).
Proof.
  intros Hi Hn. unfold Js.rem.
  assert (Hz : Qeq_bool (inject_Z n) 0 = false).
  { apply not_true_iff_false. rewrite Qeq_bool_iff. unfold Qeq; simpl. lia. }
  rewrite Hz. eexists. split; [reflexivity |].
  assert (Hq : 0 <= inject_Z i / inject_Z n).
  { apply Qle_shift_div_l.
    - rewrite <- (Zlt_Qlt 0). exact Hn.
    - rewrite Qmult_0_l. rewrite <- (Zle_Qle 0). exact Hi. }
  unfold Js.trunc. apply Qle_bool_iff in Hq. rewrite Hq.
  rewrite <- Zdiv_Qdiv, <- inject_Z_mult. unfold Qminus.
  rewrite <- inject_Z_opp, <- inject_Z_plus, Z.mod_eq by lia.
  reflexivity.
Qed.

(** Round-robin: with a whole count [n], order [i] goes to the driver at
    position [i mod n]. *)
Lemma index_rem_whole {A : Type} (xs : list A) (i : nat) (n : Z) :
  (0 < n)%Z ->
  Js.index xs (Js.rem (inject_Z (Z.of_nat i)) (inject_Z n))
  = xs !! Z.to_nat (Z.of_nat i mod n).
Proof.
  intros Hn. destruct (rem_whole (Z.of_nat i) n) as (q & -> & Hq); [lia | lia |].
  unfold Js.index. apply Qred_complete in Hq. rewrite Hq, Qred_inject_Z.
  cbn [Qden Qnum inject_Z]. rewrite Pos.eqb_refl.
  assert (H : (0 <=? Z.of_nat i mod n)%Z = true).
  { apply Z.leb_le. apply Z.mod_pos_bound. lia. }
  rewrite H. reflexivity.
Qed.

(** ** The delivery time at the call site

    The helper is declared as [(route, driver, baseTime)] and called as
    [(assignedDriver, route, route.baseTime)]: its [driver] is the route. *)

Lemma calculateDeliveryTime_declared_order (route : Route) (driver : Driver) (b : Q) :
  calculateDeliveryTime (RouteDoc route) (DriverDoc driver) b
  = Some (Js.Math_round (if isFatigued driver then b * (13 # 10) else b)).
Proof. reflexivity. Qed.

Lemma calculateDeliveryTime_as_called (assigned : Doc) (route : Route) (b : Q) :
  calculateDeliveryTime assigned (RouteDoc route) b = Some (Js.Math_round b).
Proof. reflexivity. Qed.


(** ** One order, then the batch *)

Lemma plus_number (x : Js.number) (q : Q) :
  Js.plus x (Js.Num q) <> Js.NaN -> x <> Js.NaN.
Proof. destruct x; [discriminate | intros H; exact H]. Qed.

Lemma plus_NaN (x : Js.number) : Js.plus x Js.NaN = Js.NaN.
Proof. destruct x; reflexivity. Qed.

Lemma processOrder_unresolved (a : Q) (drivers : list Driver) (routes : list Route)
    (acc : Totals) (index : nat) (order : Order) :
  resolves routes order = false -> inherited (assignedRoute order) = false ->
  processOrder a drivers (make_routeMap routes) acc index order
  = Some (acc, Document order).
Proof.
  unfold processOrder. rewrite routeMap_get_catalog, resolves_catalog.
  destruct (catalog_route routes (assignedRoute order)); [discriminate |].
  intros _ ->. reflexivity.
Qed.

(** Whatever the driver count and the drivers, an order that is processed
    leaves the penalties where they were; it adds one to the on-time counter
    when it resolves, and also when it names an inherited member, in which
    case the profit total is lost. *)
Lemma processOrder_outcome (a : Q) (drivers : list Driver) (routes : list Route)
    (acc acc' : Totals) (index : nat) (order : Order) (p : ProcessedOrder) :
  processOrder a drivers (make_routeMap routes) acc index order = Some (acc', p) ->
  classified_on_time routes order p
  /\ totalPenalties acc' == totalPenalties acc
  /\ onTimeDeliveries acc'
     = (onTimeDeliveries acc + (if resolves routes order then 1 else 0)
        + (if names_inherited routes order then 1 else 0))%nat
  /\ (totalProfit acc' <> Js.NaN ->
      totalProfit acc <> Js.NaN /\ names_inherited routes order = false).
Proof.
  unfold processOrder, classified_on_time.
  rewrite routeMap_get_catalog, resolves_catalog, names_inherited_catalog.
  destruct (catalog_route routes (assignedRoute order)) as [route|].
  - rewrite calculateDeliveryTime_as_called. cbn [mbind option_bind].
    rewrite Math_round_within_grace.
    destruct (Js.index drivers _) as [driver|]; cbn [mbind option_bind];
      [| discriminate].
    intros [= <- <-]. cbn [totalPenalties onTimeDeliveries totalProfit negb].
    split; [| split; [| split; [| intros Hnum; split]]].
    + eexists _, _. repeat split.
    + apply Qplus_0_r.
    + lia.
    + eapply plus_number, Hnum.
    + reflexivity.
  - destruct (inherited (assignedRoute order)).
    + destruct (Js.index drivers _) as [driver|]; cbn [mbind option_bind];
        [| discriminate].
      intros [= <- <-]. cbn [totalPenalties onTimeDeliveries totalProfit].
      split; [discriminate | split; [apply Qplus_0_r | split; [lia |]]].
      rewrite plus_NaN. congruence.
    + intros [= <- <-].
      split; [reflexivity | split; [reflexivity | split; [lia | auto]]].
Qed.

Lemma mapOrders_outcome (a : Q) (drivers : list Driver) (routes : list Route)
    (orders : list Order) :
  forall (acc acc' : Totals) (index : nat) (processed : list ProcessedOrder),
    mapOrders a drivers (make_routeMap routes) acc index orders = Some (acc', processed) ->
    Forall2 (classified_on_time routes) orders processed
    /\ totalPenalties acc' == totalPenalties acc
    /\ onTimeDeliveries acc'
       = (onTimeDeliveries acc + resolved_count routes orders
          + inherited_count routes orders)%nat
    /\ (totalProfit acc' <> Js.NaN ->
        totalProfit acc <> Js.NaN /\ inherited_count routes orders = 0%nat).
Proof.
  unfold resolved_count, inherited_count.
  induction orders as [|order rest IH]; intros acc acc' index processed; cbn [mapOrders].
  - intros [= <- <-].
    split; [constructor | split; [reflexivity | split; [cbn; lia | auto]]].
  - destruct (processOrder a drivers (make_routeMap routes) acc index order)
      as [[acc1 p]|] eqn:E1; cbn [mbind option_bind]; [| discriminate].
    destruct (mapOrders a drivers (make_routeMap routes) acc1 (S index) rest)
      as [[acc2 ps]|] eqn:E2; cbn [mbind option_bind]; [| discriminate].
    intros [= <- <-].
    apply processOrder_outcome in E1. destruct E1 as (Hp & Hpen1 & Hon1 & Hnum1).
    apply IH in E2. destruct E2 as (Hps & Hpen2 & Hon2 & Hnum2).
    split; [constructor; assumption | split; [| split]].
    + rewrite Hpen2. exact Hpen1.
    + rewrite Hon2, Hon1. cbn [List.filter].
      destruct (resolves routes order), (names_inherited routes order);
        cbn [length]; lia.
    + intros Hnum. destruct (Hnum2 Hnum) as [Hnum' Hrest].
      destruct (Hnum1 Hnum') as [Hacc Horder]. split; [exact Hacc |].
      cbn [List.filter]. rewrite Horder. exact Hrest.
Qed.

(** With a whole driver count and that many drivers at hand, every order
    finds its driver and the loop runs to its end. *)
Lemma processOrder_whole (n : Z) (drivers : list Driver) (routeMap : RouteMap)
    (acc : Totals) (index : nat) (order : Order) :
  (0 < n)%Z -> (Z.to_nat n <= length drivers)%nat ->
  is_Some (processOrder (inject_Z n) drivers routeMap acc index order).
Proof.
  intros Hn Hlen. unfold processOrder.
  assert (Hd : is_Some (drivers !! Z.to_nat (Z.of_nat index mod n))).
  { apply lookup_lt_is_Some.
    pose proof (Z.mod_pos_bound (Z.of_nat index) n Hn). lia. }
  destruct Hd as [driver Hd].
  destruct (routeMap_get routeMap (assignedRoute order)) as [route| |]; [| | eauto].
  - rewrite calculateDeliveryTime_as_called, index_rem_whole, Hd by exact Hn.
    cbn [mbind option_bind]. eauto.
  - rewrite index_rem_whole, Hd by exact Hn. cbn [mbind option_bind]. eauto.
Qed.

Lemma mapOrders_whole (n : Z) (drivers : list Driver) (routeMap : RouteMap)
    (orders : list Order) :
  (0 < n)%Z -> (Z.to_nat n <= length drivers)%nat ->
  forall (acc : Totals) (index : nat),
    is_Some (mapOrders (inject_Z n) drivers routeMap acc index orders).
Proof.
  intros Hn Hlen. induction orders as [|order rest IH]; intros acc index; cbn [mapOrders].
  - eauto.
  - destruct (processOrder_whole n drivers routeMap acc index order Hn Hlen)
      as [[acc1 p] ->].
    cbn [mbind option_bind].
    destruct (IH acc1 (S index)) as [[acc2 ps] ->]. cbn [mbind option_bind]. eauto.
Qed.

(** Orders that name no inherited member leave the profit and fuel totals
    numbers. *)
Lemma processOrder_numbers (a : Q) (drivers : list Driver) (routes : list Route)
    (acc acc' : Totals) (index : nat) (order : Order) (p : ProcessedOrder) :
  processOrder a drivers (make_routeMap routes) acc index order = Some (acc', p) ->
  names_inherited routes order = false ->
  (exists profit fuel, totalProfit acc = Js.Num profit /\ totalFuelCost acc = Js.Num fuel) ->
  exists profit fuel, totalProfit acc' = Js.Num profit /\ totalFuelCost acc' = Js.Num fuel.
Proof.
  unfold processOrder. rewrite routeMap_get_catalog, names_inherited_catalog.
  destruct (catalog_route routes (assignedRoute order)) as [route|].
  - rewrite calculateDeliveryTime_as_called. cbn [mbind option_bind].
    destruct (Js.index drivers _) as [driver|]; cbn [mbind option_bind];
      [| discriminate].
    intros [= <- _] _ (profit & fuel & Hp & Hf). cbn [totalProfit totalFuelCost].
    rewrite Hp, Hf. cbn [Js.plus]. eauto.
  - intros E Hinh. rewrite Hinh in E. injection E as <- _. auto.
Qed.

Lemma mapOrders_numbers (a : Q) (drivers : list Driver) (routes : list Route)
    (orders : list Order) :
  forall (acc acc' : Totals) (index : nat) (processed : list ProcessedOrder),
    mapOrders a drivers (make_routeMap routes) acc index orders = Some (acc', processed) ->
    inherited_count routes orders = 0%nat ->
    (exists profit fuel, totalProfit acc = Js.Num profit /\ totalFuelCost acc = Js.Num fuel) ->
    exists profit fuel, totalProfit acc' = Js.Num profit /\ totalFuelCost acc' = Js.Num fuel.
Proof.
  unfold inherited_count.
  induction orders as [|order rest IH]; intros acc acc' index processed; cbn [mapOrders].
  - intros [= <- _] _ Hacc. exact Hacc.
  - destruct (processOrder a drivers (make_routeMap routes) acc index order)
      as [[acc1 p]|] eqn:E1; cbn [mbind option_bind]; [| discriminate].
    destruct (mapOrders a drivers (make_routeMap routes) acc1 (S index) rest)
      as [[acc2 ps]|] eqn:E2; cbn [mbind option_bind]; [| discriminate].
    intros [= <- _]. cbn [List.filter].
    destruct (names_inherited routes order) eqn:Hinh; cbn [length]; [discriminate |].
    intros Hzero Hacc. eapply IH; [exact E2 | exact Hzero |].
    eapply processOrder_numbers; eassumption.
Qed.

(** The key 'undefined' of [fuelCostByTraffic] comes with a fuel total that
    is [NaN]: a report, whose fuel total is a number, has the three keys it
    started with. *)
Lemma processOrder_undefined_key (a : Q) (drivers : list Driver) (routeMap : RouteMap)
    (acc acc' : Totals) (index : nat) (order : Order) (p : ProcessedOrder) :
  processOrder a drivers routeMap acc index order = Some (acc', p) ->
  (fuelCostByTraffic_undefined acc = true -> totalFuelCost acc = Js.NaN) ->
  fuelCostByTraffic_undefined acc' = true -> totalFuelCost acc' = Js.NaN.
Proof.
  unfold processOrder.
  destruct (routeMap_get routeMap (assignedRoute order)) as [route| |].
  - rewrite calculateDeliveryTime_as_called. cbn [mbind option_bind].
    destruct (Js.index drivers _) as [driver|]; cbn [mbind option_bind];
      [| discriminate].
    intros [= <- _] Hacc Hkey. cbn [fuelCostByTraffic_undefined totalFuelCost] in *.
    rewrite (Hacc Hkey). reflexivity.
  - destruct (Js.index drivers _) as [driver|]; cbn [mbind option_bind];
      [| discriminate].
    intros [= <- _] _ _. cbn [totalFuelCost]. apply plus_NaN.
  - intros [= <- _] Hacc. exact Hacc.
Qed.

Lemma mapOrders_undefined_key (a : Q) (drivers : list Driver) (routeMap : RouteMap)
    (orders : list Order) :
  forall (acc acc' : Totals) (index : nat) (processed : list ProcessedOrder),
    mapOrders a drivers routeMap acc index orders = Some (acc', processed) ->
    (fuelCostByTraffic_undefined acc = true -> totalFuelCost acc = Js.NaN) ->
    fuelCostByTraffic_undefined acc' = true -> totalFuelCost acc' = Js.NaN.
Proof.
  induction orders as [|order rest IH]; intros acc acc' index processed; cbn [mapOrders].
  - intros [= <- _] Hacc. exact Hacc.
  - destruct (processOrder a drivers routeMap acc index order)
      as [[acc1 p]|] eqn:E1; cbn [mbind option_bind]; [| discriminate].
    destruct (mapOrders a drivers routeMap acc1 (S index) rest)
      as [[acc2 ps]|] eqn:E2; cbn [mbind option_bind]; [| discriminate].
    intros [= <- _] Hacc. eapply IH; [exact E2 |].
    eapply processOrder_undefined_key; eassumption.
Qed.

(** ** The fatigue check *)

Lemma checkFatigue_overwrites (docs : list Driver) :
  Forall2 fatigue_overwritten docs (map checkFatigue docs).
Proof.
  induction docs as [|d ds IH]; constructor; [| exact IH].
  unfold fatigue_overwritten. repeat split.
Qed.

(** ** Counting the orders *)

Lemma resolved_unresolved_count (routes : list Route) (orders : list Order) :
  length orders = (resolved_count routes orders + unresolved_count routes orders)%nat.
Proof.
  unfold resolved_count, unresolved_count.
  induction orders as [|o os IH]; [reflexivity |].
  cbn [List.filter length]. destruct (resolves routes o); cbn [negb length]; lia.
Qed.

(** A batch none of whose orders names an inherited member. *)
Lemma inherited_count_0 (routes : list Route) (orders : list Order) :
  inherited_count routes orders = 0%nat ->
  Forall (fun order => names_inherited routes order = false) orders.
Proof.
  unfold inherited_count. induction orders as [|o os IH]; [constructor |].
  cbn [List.filter]. destruct (names_inherited routes o) eqn:E; cbn [length];
    [discriminate |].
  intros H. constructor; [exact E | exact (IH H)].
Qed.

(** ** The processed orders are projections *)

Lemma processOrder_projection (a : Q) (drivers : list Driver)
    (routeMap : RouteMap) (acc acc' : Totals) (index : nat) (order : Order)
    (p : ProcessedOrder) :
  processOrder a drivers routeMap acc index order = Some (acc', p) ->
  totalProfit acc' <> Js.NaN ->
  projection_of order p /\ totalProfit acc <> Js.NaN.
Proof.
  unfold processOrder, projection_of.
  destruct (routeMap_get routeMap (assignedRoute order)) as [route| |].
  - rewrite calculateDeliveryTime_as_called. cbn [mbind option_bind].
    destruct (Js.index drivers _) as [driver|]; cbn [mbind option_bind];
      [| discriminate].
    intros [= <- <-]. cbn [totalProfit]. intros Hnum.
    split; [| eapply plus_number, Hnum]. right. eexists _, _. repeat split.
  - destruct (Js.index drivers _) as [driver|]; cbn [mbind option_bind];
      [| discriminate].
    intros [= <- <-]. cbn [totalProfit]. rewrite plus_NaN. congruence.
  - intros [= <- <-] Hnum. split; [left; reflexivity | exact Hnum].
Qed.

Lemma mapOrders_projection (a : Q) (drivers : list Driver)
    (routeMap : RouteMap) (orders : list Order) :
  forall (acc acc' : Totals) (index : nat) (processed : list ProcessedOrder),
    mapOrders a drivers routeMap acc index orders = Some (acc', processed) ->
    totalProfit acc' <> Js.NaN ->
    Forall2 projection_of orders processed /\ totalProfit acc <> Js.NaN.
Proof.
  induction orders as [|order rest IH]; intros acc acc' index processed; cbn [mapOrders].
  - intros [= <- <-] Hnum. split; [constructor | exact Hnum].
  - destruct (processOrder a drivers routeMap acc index order)
      as [[acc1 p]|] eqn:E1; cbn [mbind option_bind]; [| discriminate].
    destruct (mapOrders a drivers routeMap acc1 (S index) rest)
      as [[acc2 ps]|] eqn:E2; cbn [mbind option_bind]; [| discriminate].
    intros [= <- <-] Hnum.
    destruct (IH _ _ _ _ E2 Hnum) as [Hps Hnum1].
    destruct (processOrder_projection _ _ _ _ _ _ _ _ E1 Hnum1) as [Hp Hacc].
    split; [constructor; assumption | exact Hacc].
Qed.

(** ** The score of small batches *)

Lemma all_batches_spec (bound : nat) (f : nat -> nat -> bool) :
  all_batches bound f = true ->
  forall onTime total : nat,
    (0 < total <= bound)%nat -> (onTime <= total)%nat -> f onTime total = true.
Proof.
  unfold all_batches. rewrite forallb_forall. intros Hall onTime total Htotal Hle.
  destruct total as [|total]; [lia |].
  specialize (Hall total). rewrite forallb_forall in Hall.
  apply Hall; apply in_seq; lia.
Qed.

(** Every batch of one to 200 orders, with every count of on-time orders:
    the handler's arithmetic gives a score, at most half a hundredth away
    from the exact share. *)
Lemma small_batches_within_half_hundredth :
  all_batches 200 within_half_hundredth = true.
Proof. vm_compute. reflexivity. Qed.

(** The score, by way of its hundredths. *)
Lemma efficiency_score_hundredths (onTime total : nat) :
  efficiency_score onTime (S total)
  = (k ← score_hundredths onTime (S total); hundredths k).
Proof. reflexivity. Qed.

Lemma small_batch_score (onTime total : nat) :
  (0 < total <= 200)%nat -> (onTime <= total)%nat ->
  exists (k : Z) (y : Q),
    efficiency_score onTime total = Some y /\ hundredths k = Some y
    /\ percentage onTime total - (1 # 200) <= inject_Z k / 100
    /\ inject_Z k / 100 <= percentage onTime total + (1 # 200).
Proof.
  intros Htotal Hle.
  pose proof (all_batches_spec 200 within_half_hundredth
                small_batches_within_half_hundredth onTime total Htotal Hle) as Hcheck.
  unfold within_half_hundredth in Hcheck.
  destruct total as [|total]; [lia |]. rewrite efficiency_score_hundredths.
  destruct (score_hundredths onTime (S total)) as [k|]; [| discriminate].
  cbn [mbind option_bind].
  destruct (hundredths k) as [y|] eqn:Ek;
    [| rewrite andb_false_r in Hcheck; discriminate].
  rewrite andb_true_r in Hcheck. apply andb_true_iff in Hcheck.
  destruct Hcheck as [Hlo Hhi]. apply Qle_bool_iff in Hlo, Hhi.
  exists k, y. split; [reflexivity | split; [exact Ek | split; assumption]].
Qed.

(** For a batch of up to 200 orders the score is the exact share rounded to
    two decimal places, a tie going either way. *)
Lemma efficiency_score_nearest (onTime total : nat) (y : Q) :
  (0 < total <= 200)%nat -> (onTime <= total)%nat ->
  efficiency_score onTime total = Some y ->
  nearest_hundredth (percentage onTime total) y.
Proof.
  intros Htotal Hle Hscore.
  destruct (small_batch_score onTime total Htotal Hle) as (k & y' & Hy' & Hk & Hlo & Hhi).
  rewrite Hscore in Hy'. injection Hy' as <-.
  exists k. split; [exact Hlo | split; [exact Hhi |]].
  exists y. split; [exact Hk | reflexivity].
Qed.

(** For a batch of up to 200 orders the handler's arithmetic gives a
    score. *)
Lemma efficiency_score_defined (onTime total : nat) :
  (total <= 200)%nat -> (onTime <= total)%nat ->
  exists y, efficiency_score onTime total = Some y.
Proof.
  intros Htotal Hle. destruct total as [|total].
  - assert (onTime = 0%nat) as -> by lia. exists 0. vm_compute. reflexivity.
  - destruct (small_batch_score onTime (S total)) as (k & y & Hy & _); [lia | exact Hle |].
    eauto.
Qed.

(** ** A driver count that is not whole *)

Lemma floor_1 (x : Q) : 1 <= x -> x < 2 -> Qfloor x = 1%Z.
Proof.
  intros H1 H2. pose proof (Qfloor_le x) as Hle. pose proof (Qlt_floor x) as Hlt.
  assert (Hup : inject_Z (Qfloor x) < inject_Z 2) by (change (inject_Z 2) with 2; lra).
  assert (Hlo : inject_Z 1 < inject_Z (Qfloor x + 1)) by (change (inject_Z 1) with 1; lra).
  rewrite <- Zlt_Qlt in Hup, Hlo. lia.
Qed.

(** For a count [a] strictly between [i - 1] and [i], the remainder of [i]
    by [a] lies strictly between 0 and 1. *)
Lemma rem_fractional (i : Z) (a : Q) :
  1 <= a -> inject_Z i - 1 < a -> a < inject_Z i ->
  exists q, Js.rem (inject_Z i) a = Some q /\ 0 < q /\ q < 1.
Proof.
  intros Ha Hlo Hhi. unfold Js.rem.
  assert (Hz : Qeq_bool a 0 = false).
  { apply not_true_iff_false. rewrite Qeq_bool_iff. intros E. lra. }
  rewrite Hz. eexists. split; [reflexivity |].
  assert (H1 : 1 <= inject_Z i / a) by (apply Qle_shift_div_l; lra).
  assert (H2 : inject_Z i / a < 2) by (apply Qlt_shift_div_r; lra).
  assert (H0 : Qle_bool 0 (inject_Z i / a) = true) by (apply Qle_bool_iff; lra).
  unfold Js.trunc. rewrite H0, (floor_1 _ H1 H2). change (inject_Z 1) with 1.
  split; lra.
Qed.

(** A number strictly between 0 and 1 is no position of an array. *)
Lemma index_fractional {A : Type} (xs : list A) (q : Q) :
  0 < q -> q < 1 -> Js.index xs (Some q) = None.
Proof.
  intros H0 H1. unfold Js.index. cbv zeta.
  destruct (Qden (Qred q) =? 1)%positive eqn:E; [| reflexivity].
  exfalso. apply Pos.eqb_eq in E. pose proof (Qred_correct q) as Hq.
  destruct (Qred q) as [num den]. cbn [Qden] in E. subst den.
  change (num # 1) with (inject_Z num) in Hq.
  assert (Hlo : inject_Z 0 < inject_Z num) by (change (inject_Z 0) with 0; lra).
  assert (Hup : inject_Z num < inject_Z 1) by (change (inject_Z 1) with 1; lra).
  rewrite <- Zlt_Qlt in Hlo, Hup. lia.
Qed.

(** An order that resolves, at a position where no driver is found, stops
    the loop. *)
Lemma processOrder_no_driver (a : Q) (drivers : list Driver) (routes : list Route)
    (acc : Totals) (index : nat) (order : Order) :
  resolves routes order = true ->
  Js.index drivers (Js.rem (inject_Z (Z.of_nat index)) a) = None ->
  processOrder a drivers (make_routeMap routes) acc index order = None.
Proof.
  unfold processOrder. rewrite routeMap_get_catalog, resolves_catalog.
  destruct (catalog_route routes (assignedRoute order)) as [route|]; [| discriminate].
  intros _ ->. reflexivity.
Qed.

Lemma mapOrders_fails_at (a : Q) (drivers : list Driver) (routeMap : RouteMap)
    (orders : list Order) :
  forall (acc : Totals) (index j : nat) (order : Order),
    orders !! j = Some order ->
    (forall acc', processOrder a drivers routeMap acc' (index + j) order = None) ->
    mapOrders a drivers routeMap acc index orders = None.
Proof.
  induction orders as [|o rest IH]; intros acc index j order Hj Hfail; [discriminate Hj |].
  cbn [mapOrders]. destruct j as [|j].
  - injection Hj as ->. rewrite Nat.add_0_r in Hfail. rewrite Hfail. reflexivity.
  - destruct (processOrder a drivers routeMap acc index o) as [[acc1 p]|];
      cbn [mbind option_bind]; [| reflexivity].
    rewrite (IH acc1 (S index) j order Hj); [reflexivity |].
    intros acc'. replace (S index + j)%nat with (index + S j)%nat by lia. apply Hfail.
Qed.

Lemma Forall2_with_Forall {A B : Type} (P R : A -> B -> Prop) (Q : A -> Prop)
    (l : list A) (k : list B) :
  (forall x y, P x y -> Q x -> R x y) ->
  Forall2 P l k -> Forall Q l -> Forall2 R l k.
Proof.
  intros Himp H2. induction H2 as [|x y l k Hxy _ IH]; intros H1; [constructor |].
  inversion H1 as [|? ? Hx Hl]; subst. constructor; [apply Himp; assumption | apply IH, Hl].
Qed.

(** ** The endpoint *)

Section EndpointProperties.

Variable limit : Q -> list Driver -> list Driver.
Variable new_id : Database -> ObjectId.

Lemma validate_whole_count (n : Z) (s : string) (h : Q) :
  validateSimulationInputs (request (inject_Z n) s h) = Next -> (1 <= n)%Z.
Proof.
  intros H. apply validate_next_iff in H.
  destruct H as (a & s' & h' & E & [Ha _] & _). injection E as <- _ _.
  rewrite (Zle_Qle 1). exact Ha.
Qed.

(** A request that passes the validator reaches the handler. *)
Lemma post_simulation_next (db : Database) (body : SimulationBody) (a : Q) :
  validateSimulationInputs body = Next -> availableDrivers body = Some a ->
  post_simulation limit new_id db body = simulation limit new_id db body a.
Proof. unfold post_simulation. intros -> ->. reflexivity. Qed.

(** What the report leaves as it found it. *)
Lemma report_frame (db : Database) (body : SimulationBody) (drivers : list Driver)
    (orders : list Order) (acc : Totals) (processed : list ProcessedOrder) :
  let r := report new_id db body drivers orders acc processed in
  db_drivers (database r) = db_drivers db
  /\ db_routes (database r) = db_routes db
  /\ db_orders (database r) = db_orders db
  /\ driver_docs r = drivers
  /\ processedOrders r = processed.
Proof.
  cbv zeta. unfold report.
  destruct (Js.Math_round_number (totalProfit acc)),
    (efficiency_score (onTimeDeliveries acc) (length orders)),
    (Js.Math_round_number (totalFuelCost acc)); cbn; repeat split.
Qed.

(** The report answers with the figures, or with the 500 of a refused
    save. *)
Lemma report_cases (db : Database) (body : SimulationBody) (drivers : list Driver)
    (orders : list Order) (acc : Totals) (processed : list ProcessedOrder) :
  let r := report new_id db body drivers orders acc processed in
  (response r = SimulationFailed /\ database r = db)
  \/ exists res delivery fuel id, response r = Json res delivery fuel id.
Proof.
  cbv zeta. unfold report.
  destruct (Js.Math_round_number (totalProfit acc)),
    (efficiency_score (onTimeDeliveries acc) (length orders)),
    (Js.Math_round_number (totalFuelCost acc)); cbn; eauto 6.
Qed.

(** The figures of a report, read off the totals. *)
Lemma report_Json (db : Database) (body : SimulationBody) (drivers : list Driver)
    (orders : list Order) (acc : Totals) (processed : list ProcessedOrder)
    (res : Results.t) (delivery fuel : list Entry) (id : ObjectId) :
  response (report new_id db body drivers orders acc processed)
  = Json res delivery fuel id ->
  totalProfit acc <> Js.NaN
  /\ Results.onTimeDeliveries res = onTimeDeliveries acc
  /\ Results.totalDeliveries res = length orders
  /\ Results.penalties res = totalPenalties acc
  /\ efficiency_score (onTimeDeliveries acc) (length orders)
     = Some (Results.efficiencyScore res)
  /\ Js.Math_round_number (totalProfit acc) = Some (Results.totalProfit res)
  /\ Js.Math_round_number (totalFuelCost acc) = Some (Results.fuelCost res)
  /\ Results.bonuses res = Js.Math_round (totalBonuses acc)
  /\ delivery
     = [ ("On Time"%string, Z.of_nat (onTimeDeliveries acc));
         ("Late"%string,
          (Z.of_nat (length orders) - Z.of_nat (onTimeDeliveries acc))%Z) ]
  /\ id = new_id db.
Proof.
  unfold report.
  destruct (totalProfit acc) as [profit|]; cbn [Js.Math_round_number];
    [| discriminate].
  destruct (efficiency_score (onTimeDeliveries acc) (length orders)) as [score|];
    [| discriminate].
  destruct (Js.Math_round_number (totalFuelCost acc)) as [fuel'|]; [| discriminate].
  cbn [response sim_id]. intros [= <- <- _ <-].
  cbn [Results.onTimeDeliveries Results.totalDeliveries Results.penalties
       Results.efficiencyScore Results.totalProfit Results.fuelCost Results.bonuses].
  repeat split. discriminate.
Qed.

(** With a whole count of drivers, all of them in the roster, the handler
    runs the loop to its end and goes on to the report. *)
Lemma simulation_whole (db : Database) (body : SimulationBody) (n : Z) :
  (1 <= n)%Z ->
  limit (inject_Z n) (db_drivers db) = take (Z.to_nat n) (db_drivers db) ->
  (Z.to_nat n <= length (db_drivers db))%nat ->
  exists acc processed,
    mapOrders (inject_Z n) (map checkFatigue (take (Z.to_nat n) (db_drivers db)))
              (make_routeMap (db_routes db)) initial_totals 0 (db_orders db)
      = Some (acc, processed)
    /\ simulation limit new_id db body (inject_Z n)
       = report new_id db body (map checkFatigue (take (Z.to_nat n) (db_drivers db)))
                (db_orders db) acc processed.
Proof.
  intros Hn Hlimit Hlen. unfold simulation. rewrite Hlimit.
  assert (Htake : length (take (Z.to_nat n) (db_drivers db)) = Z.to_nat n).
  { rewrite length_take. lia. }
  assert (Hlt : Js.lt (inject_Z (Z.of_nat (length (take (Z.to_nat n) (db_drivers db)))))
                      (inject_Z n) = false).
  { apply lt_false_iff. rewrite Htake, Z2Nat.id by lia. apply Qle_refl. }
  rewrite Hlt.
  destruct (mapOrders_whole n (map checkFatigue (take (Z.to_nat n) (db_drivers db)))
              (make_routeMap (db_routes db)) (db_orders db)) with (acc := initial_totals) (index := 0%nat)
    as [[acc processed] E].
  - lia.
  - rewrite length_map, Htake. lia.
  - rewrite E. eauto.
Qed.

(** A run that answers with a report went through the loop. *)
Lemma simulation_reported (db : Database) (body : SimulationBody) (a : Q)
    (res : Results.t) (delivery fuel : list Entry) (id : ObjectId) :
  response (simulation limit new_id db body a) = Json res delivery fuel id ->
  exists acc processed,
    mapOrders a (map checkFatigue (limit a (db_drivers db)))
              (make_routeMap (db_routes db)) initial_totals 0 (db_orders db)
      = Some (acc, processed)
    /\ simulation limit new_id db body a
       = report new_id db body (map checkFatigue (limit a (db_drivers db)))
                (db_orders db) acc processed.
Proof.
  unfold simulation.
  destruct (Js.lt _ a); [discriminate |].
  destruct (mapOrders _ _ _ _ _ _) as [[acc processed]|]; [| discriminate].
  intros _. eauto.
Qed.

(** What a report says of the batch: the orders classified one by one, no
    penalty, every order that resolves counted on time and no other. *)
Lemma reported_outcome (db : Database) (body : SimulationBody) (a : Q)
    (res : Results.t) (delivery fuel : list Entry) (id : ObjectId) :
  response (simulation limit new_id db body a) = Json res delivery fuel id ->
  Forall2 (classified_on_time (db_routes db)) (db_orders db)
          (processedOrders (simulation limit new_id db body a))
  /\ Forall (fun order => names_inherited (db_routes db) order = false) (db_orders db)
  /\ Results.penalties res == 0
  /\ Results.onTimeDeliveries res = resolved_count (db_routes db) (db_orders db)
  /\ Results.totalDeliveries res = length (db_orders db)
  /\ efficiency_score (resolved_count (db_routes db) (db_orders db))
                      (length (db_orders db))
     = Some (Results.efficiencyScore res)
  /\ delivery
     = [ ("On Time"%string, Z.of_nat (resolved_count (db_routes db) (db_orders db)));
         ("Late"%string, Z.of_nat (unresolved_count (db_routes db) (db_orders db))) ].
Proof.
  intros Hjson.
  destruct (simulation_reported _ _ _ _ _ _ _ Hjson) as (acc & processed & E & Hrun).
  rewrite Hrun in Hjson |- *.
  destruct (report_frame db body (map checkFatigue (limit a (db_drivers db)))
              (db_orders db) acc processed) as (_ & _ & _ & _ & ->).
  apply report_Json in Hjson.
  destruct Hjson as (Hnum & Hon & Hlen & Hpen & Hscore & _ & _ & _ & Hdel & _).
  apply mapOrders_outcome in E. destruct E as (Hall & Hpen' & Hon' & Hinh).
  destruct (Hinh Hnum) as [_ Hzero].
  cbn [initial_totals onTimeDeliveries totalPenalties Nat.add] in Hon', Hpen'.
  rewrite Hzero, Nat.add_0_r in Hon'. rewrite Hon' in Hon, Hscore, Hdel.
  split; [exact Hall | split; [apply inherited_count_0, Hzero | split; [| split; [| split; [| split]]]]].
  - rewrite Hpen. exact Hpen'.
  - exact Hon.
  - exact Hlen.
  - exact Hscore.
  - rewrite Hdel.
    replace (Z.of_nat (length (db_orders db))
             - Z.of_nat (resolved_count (db_routes db) (db_orders db)))%Z
      with (Z.of_nat (unresolved_count (db_routes db) (db_orders db)))
      by (rewrite (resolved_unresolved_count (db_routes db) (db_orders db)); lia).
    reflexivity.
Qed.

(** With a whole driver count and that many drivers in the roster, the loop
    hands back one element for each order, classified. *)
Lemma loop_completes (db : Database) (n : Z) (s : string) (h : Q) :
  validateSimulationInputs (request (inject_Z n) s h) = Next ->
  limit (inject_Z n) (db_drivers db) = take (Z.to_nat n) (db_drivers db) ->
  (Z.to_nat n <= length (db_drivers db))%nat ->
  Forall2 (classified_on_time (db_routes db)) (db_orders db)
          (processedOrders (post_simulation limit new_id db (request (inject_Z n) s h))).
Proof.
  intros Hv Hlimit Hlen.
  rewrite (post_simulation_next db _ (inject_Z n)) by (exact Hv || reflexivity).
  destruct (simulation_whole db (request (inject_Z n) s h) n) as (acc & processed & E & ->);
    [eapply validate_whole_count, Hv | exact Hlimit | exact Hlen |].
  destruct (report_frame db (request (inject_Z n) s h)
              (map checkFatigue (take (Z.to_nat n) (db_drivers db)))
              (db_orders db) acc processed) as (_ & _ & _ & _ & ->).
  apply mapOrders_outcome in E. apply E.
Qed.

(** The handler reads the driver count off the body and nothing else. *)
Lemma simulation_body (db : Database) (body body' : SimulationBody) (a : Q) :
  response (simulation limit new_id db body' a) = response (simulation limit new_id db body a)
  /\ processedOrders (simulation limit new_id db body' a)
     = processedOrders (simulation limit new_id db body a)
  /\ driver_docs (simulation limit new_id db body' a)
     = driver_docs (simulation limit new_id db body a).
Proof.
  unfold simulation.
  destruct (Js.lt _ a); [repeat split |].
  destruct (mapOrders _ _ _ _ _ _) as [[acc processed]|]; [| repeat split].
  unfold report.
  destruct (Js.Math_round_number (totalProfit acc)),
    (efficiency_score (onTimeDeliveries acc) (length (db_orders db))),
    (Js.Math_round_number (totalFuelCost acc)); repeat split.
Qed.

(** A count that is not whole: the answer is the driver error when the
    store hands back no more documents than asked for; and once an order
    that resolves sits at the first position past the count, the answer is
    that error or the 500 of the [catch] clause. *)
Lemma fractional_count_short (db : Database) (body : SimulationBody) (a : Q) :
  (forall k : Z, ~ a == inject_Z k) ->
  inject_Z (Z.of_nat (length (limit a (db_drivers db)))) <= a ->
  simulation limit new_id db body a
  = {| response := Status 400 (NotEnoughDrivers (length (limit a (db_drivers db))) a);
       database := db;
       driver_docs := limit a (db_drivers db);
       processedOrders := [] |}.
Proof.
  intros Hfrac Hle. unfold simulation.
  assert (Hlt : Js.lt (inject_Z (Z.of_nat (length (limit a (db_drivers db))))) a = true).
  { apply lt_true_iff. apply Qle_lt_or_eq in Hle. destruct Hle as [Hlt | Heq]; [exact Hlt |].
    exfalso. apply (Hfrac (Z.of_nat (length (limit a (db_drivers db))))).
    symmetry. exact Heq. }
  rewrite Hlt. reflexivity.
Qed.

Lemma fractional_count_not_served (db : Database) (body : SimulationBody) (a : Q)
    (i : nat) (order : Order) :
  1 <= a -> inject_Z (Z.of_nat i) - 1 < a -> a < inject_Z (Z.of_nat i) ->
  db_orders db !! i = Some order -> resolves (db_routes db) order = true ->
  (response (simulation limit new_id db body a)
   = Status 400 (NotEnoughDrivers (length (limit a (db_drivers db))) a)
   \/ response (simulation limit new_id db body a) = SimulationFailed)
  /\ database (simulation limit new_id db body a) = db.
Proof.
  intros Ha Hlo Hhi Hi Hres. unfold simulation.
  destruct (Js.lt _ a); [split; [left |]; reflexivity |].
  rewrite (mapOrders_fails_at _ _ _ _ initial_totals 0%nat i order Hi).
  - split; [right |]; reflexivity.
  - intros acc'. change (0 + i)%nat with i.
    apply processOrder_no_driver; [exact Hres |].
    destruct (rem_fractional (Z.of_nat i) a Ha Hlo Hhi) as (q & -> & H0 & H1).
    apply index_fractional; assumption.
Qed.

(** C2, as amended: in a catalog without a route named [__proto__], an
    order that does not resolve and does not name a member every object has
    is handed back as the document it was, with the totals, the on-time
    counter included, as they stood and no driver given to it. In a report
    the on-time count is the number of orders that resolve and the late
    count is the number of all orders minus the on-time count, that is the
    number of orders that do not resolve, each of which has come back as it
    was. With a whole driver count and that many drivers in the roster the
    loop hands back every such order as it was, whatever the answer. *)
Theorem unresolved_order_skipped_and_late (db : Database) (body : SimulationBody)
    (a : Q) :
  validateSimulationInputs body = Next -> availableDrivers body = Some a ->
  plain_catalog (db_routes db) = true ->
  let r := post_simulation limit new_id db body in
  (forall drivers acc index order,
     resolves (db_routes db) order = false ->
     inherited (assignedRoute order) = false ->
     processOrder a drivers (make_routeMap (db_routes db)) acc index order
     = Some (acc, Document order))
  /\ (forall res delivery fuel id,
        response r = Json res delivery fuel id ->
        delivery
        = [ ("On Time"%string, Z.of_nat (resolved_count (db_routes db) (db_orders db)));
            ("Late"%string, Z.of_nat (unresolved_count (db_routes db) (db_orders db))) ]
        /\ Results.onTimeDeliveries res = resolved_count (db_routes db) (db_orders db)
        /\ Forall2 (fun order p => resolves (db_routes db) order = false -> p = Document order)
                   (db_orders db) (processedOrders r))
  /\ (forall (n : Z) (s : string) (h : Q),
        body = request (inject_Z n) s h ->
        limit (inject_Z n) (db_drivers db) = take (Z.to_nat n) (db_drivers db) ->
        (Z.to_nat n <= length (db_drivers db))%nat ->
        Forall2 (fun order p =>
                   resolves (db_routes db) order = false ->
                   inherited (assignedRoute order) = false -> p = Document order)
                (db_orders db) (processedOrders r)).
Proof.
  intros Hv Ha Hplain r. subst r. split; [| split].
  - intros drivers acc index order Hres Hinh. apply processOrder_unresolved; assumption.
  - rewrite (post_simulation_next db body a Hv Ha).
    intros res delivery fuel id Hjson.
    apply reported_outcome in Hjson.
    destruct Hjson as (Hall & Hinh & _ & Hon & _ & _ & Hdel).
    split; [exact Hdel | split; [exact Hon |]].
    eapply Forall2_with_Forall; [| exact Hall | exact Hinh]. cbv beta.
    intros order p Hclass Hno Hres. unfold classified_on_time in Hclass.
    rewrite names_inherited_catalog in Hno. rewrite resolves_catalog in Hres.
    destruct (catalog_route (db_routes db) (assignedRoute order)); [discriminate |].
    apply Hclass, Hno.
  - intros n s h -> Hlimit Hlen.
    eapply Forall2_impl; [apply loop_completes; assumption |]. cbv beta.
    intros order p Hclass Hres Hinh. unfold classified_on_time in Hclass.
    rewrite resolves_catalog in Hres.
    destruct (catalog_route (db_routes db) (assignedRoute order)); [discriminate |].
    apply Hclass, Hinh.
Qed.


(** C8, as amended: over a catalog without a route named [__proto__], a
    completed run reports as its score what the handler's binary64
    arithmetic makes of the number of orders that resolve over the number of
    all the orders, resolved or not, times 100, rounded at the second
    decimal. For a batch of up to 200 orders this is the exact share rounded
    to two decimal places, a tie going either way. Without orders the score
    is 0 and so are profit, fuel cost, penalties and bonuses. *)
Theorem efficiency_score_of_a_run (db : Database) (body : SimulationBody) (a : Q) :
  validateSimulationInputs body = Next -> availableDrivers body = Some a ->
  plain_catalog (db_routes db) = true ->
  let r := post_simulation limit new_id db body in
  let onTime := resolved_count (db_routes db) (db_orders db) in
  let total := length (db_orders db) in
  forall res delivery fuel id,
    response r = Json res delivery fuel id ->
    Results.onTimeDeliveries res = onTime
    /\ Results.totalDeliveries res = total
    /\ efficiency_score onTime total = Some (Results.efficiencyScore res)
    /\ ((0 < total <= 200)%nat ->
        nearest_hundredth (percentage onTime total) (Results.efficiencyScore res))
    /\ (db_orders db = [] ->
        Results.efficiencyScore res == 0
        /\ Results.totalProfit res = 0%Z /\ Results.fuelCost res = 0%Z
        /\ Results.penalties res == 0 /\ Results.bonuses res = 0%Z).
Proof.
  intros Hv Ha Hplain r onTime total. subst r onTime total.
  rewrite (post_simulation_next db body a Hv Ha).
  intros res delivery fuel id Hjson.
  pose proof (reported_outcome _ _ _ _ _ _ _ Hjson) as (_ & _ & Hpen & Hon & Hlen & Hscore & _).
  split; [exact Hon | split; [exact Hlen | split; [exact Hscore | split]]].
  - intros Htotal. apply efficiency_score_nearest; [exact Htotal | | exact Hscore].
    rewrite (resolved_unresolved_count (db_routes db) (db_orders db)). lia.
  - intros Hnil.
    destruct (simulation_reported _ _ _ _ _ _ _ Hjson) as (acc & processed & E & Hrun).
    rewrite Hrun in Hjson. rewrite Hnil in E, Hjson. cbn [mapOrders] in E.
    injection E as <- <-. apply report_Json in Hjson.
    destruct Hjson as (_ & _ & _ & _ & Hs & Hp & Hf & Hb & _).
    cbn [initial_totals totalProfit totalFuelCost totalBonuses onTimeDeliveries
         length Js.Math_round_number] in Hs, Hp, Hf, Hb.
    injection Hp as <-. injection Hf as <-. rewrite Hb.
    assert (Hzero : efficiency_score 0 0 = Some 0) by (vm_compute; reflexivity).
    rewrite Hzero in Hs. injection Hs as <-.
    split; [reflexivity | split; [reflexivity | split; [reflexivity | split]]];
      [exact Hpen | reflexivity].
Qed.

(** C7: when the roster has fewer drivers than the whole count asked for,
    the answer is the not-enough-drivers error with the size of the roster
    and the count asked for; no order is processed, no document is written
    to, nothing is stored. *)
Theorem insufficient_drivers (db : Database) (n : Z) (s : string) (h : Q) :
  validateSimulationInputs (request (inject_Z n) s h) = Next ->
  limit (inject_Z n) (db_drivers db) = take (Z.to_nat n) (db_drivers db) ->
  (length (db_drivers db) < Z.to_nat n)%nat ->
  post_simulation limit new_id db (request (inject_Z n) s h)
  = {| response := Status 400 (NotEnoughDrivers (length (db_drivers db)) (inject_Z n));
       database := db;
       driver_docs := db_drivers db;
       processedOrders := [] |}.
Proof.
  intros Hv Hlimit Hlen.
  rewrite (post_simulation_next db _ (inject_Z n)) by (exact Hv || reflexivity).
  unfold simulation. rewrite Hlimit, take_ge by lia.
  assert (Hlt : Js.lt (inject_Z (Z.of_nat (length (db_drivers db)))) (inject_Z n) = true).
  { apply lt_true_iff. rewrite <- Zlt_Qlt. lia. }
  rewrite Hlt. reflexivity.
Qed.

(** C3, as amended: a run that gets past the driver check leaves the Driver,
    Route and Order collections as they were, and its processed orders, when
    the loop ends, are the order documents themselves or new objects that
    carry the orders' fields; of the driver documents it fetched it
    overwrites one field, [isFatigued], in place, with
    [currentShiftHours > 8]. *)
Theorem run_overwrites_only_the_fatigue_flag (db : Database) (body : SimulationBody)
    (a : Q) :
  validateSimulationInputs body = Next -> availableDrivers body = Some a ->
  Js.lt (inject_Z (Z.of_nat (length (limit a (db_drivers db))))) a = false ->
  let r := post_simulation limit new_id db body in
  db_drivers (database r) = db_drivers db
  /\ db_routes (database r) = db_routes db
  /\ db_orders (database r) = db_orders db
  /\ (response r = SimulationFailed
      \/ Forall2 projection_of (db_orders db) (processedOrders r))
  /\ Forall2 fatigue_overwritten (limit a (db_drivers db)) (driver_docs r).
Proof.
  intros Hv Ha Hlt r. subst r. rewrite (post_simulation_next db body a Hv Ha).
  unfold simulation. rewrite Hlt.
  pose proof (checkFatigue_overwrites (limit a (db_drivers db))) as Hdocs.
  destruct (mapOrders _ _ _ _ _ _) as [[acc processed]|] eqn:E.
  - destruct (report_frame db body (map checkFatigue (limit a (db_drivers db)))
                (db_orders db) acc processed) as (-> & -> & -> & -> & ->).
    repeat split; [| exact Hdocs].
    destruct (report_cases db body (map checkFatigue (limit a (db_drivers db)))
                (db_orders db) acc processed)
      as [[Hfail _] | (res & delivery & fuel & id & Hjson)]; [left; exact Hfail |].
    right. apply report_Json in Hjson. destruct Hjson as (Hnum & _).
    eapply mapOrders_projection; eassumption.
  - cbn [response database driver_docs processedOrders]. auto 6.
Qed.

(** C10, as amended: the validator checks presence, the two ranges and the
    pattern, and nothing else: any rational driver count in [1,50] and any
    rational hour count in [1,24], whole or not, pass with a well-formed
    start time, and the request goes on to the handler. The hour count is
    not read there: another one gives the same answer, the same processed
    orders and the same driver documents. A driver count that is not whole
    is answered with the not-enough-drivers error whenever the store hands
    back no more documents than asked for; and when an order that resolves
    sits at the first position past the count, the answer is that error or
    the 500 of the [catch] clause, and nothing is stored. *)
Theorem fractional_counts_pass_validation (db : Database) (a : Q) (s : string) (h : Q) :
  1 <= a /\ a <= 50 -> 1 <= h /\ h <= 24 -> test timeRegex s = true ->
  let r := post_simulation limit new_id db (request a s h) in
  validateSimulationInputs (request a s h) = Next
  /\ r = simulation limit new_id db (request a s h) a
  /\ (forall h' : Q,
        1 <= h' /\ h' <= 24 ->
        let r' := post_simulation limit new_id db (request a s h') in
        response r' = response r /\ processedOrders r' = processedOrders r
        /\ driver_docs r' = driver_docs r)
  /\ ((forall k : Z, ~ a == inject_Z k) ->
      inject_Z (Z.of_nat (length (limit a (db_drivers db)))) <= a ->
      r = {| response :=
               Status 400 (NotEnoughDrivers (length (limit a (db_drivers db))) a);
             database := db;
             driver_docs := limit a (db_drivers db);
             processedOrders := [] |})
  /\ (forall (i : nat) (order : Order),
        inject_Z (Z.of_nat i) - 1 < a -> a < inject_Z (Z.of_nat i) ->
        db_orders db !! i = Some order -> resolves (db_routes db) order = true ->
        (response r
         = Status 400 (NotEnoughDrivers (length (limit a (db_drivers db))) a)
         \/ response r = SimulationFailed)
        /\ database r = db).
Proof.
  intros Ha Hh Hs r. subst r.
  assert (Hv : forall h', 1 <= h' /\ h' <= 24 ->
                          validateSimulationInputs (request a s h') = Next).
  { intros h' Hh'. apply validate_next_iff. exists a, s, h'. auto. }
  rewrite (post_simulation_next db (request a s h) a (Hv h Hh) eq_refl).
  split; [exact (Hv h Hh) | split; [reflexivity | split; [| split]]].
  - intros h' Hh'. cbv zeta.
    rewrite (post_simulation_next db (request a s h') a (Hv h' Hh') eq_refl).
    apply simulation_body.
  - apply fractional_count_short.
  - intros i order Hlo Hhi Hi Hres.
    apply (fractional_count_not_served db (request a s h) a i order);
      [apply Ha | assumption ..].
Qed.

End EndpointProperties.

(** C1, on the code: for the written scenario -- a route of base time 30, the
    one driver nine hours into the shift, hence marked fatigued by the run --
    the order is delivered in 30 minutes, where thirty per cent more would
    round to 39. The helper itself applies the slowdown when it is given its
    arguments in the order it declares them. *)
Theorem fatigued_driver_not_slowed :
  let r := post_simulation limit_whole next_id tired_db (request 1 "09:00" 8) in
  map currentShiftHours (driver_docs r) = [9]
  /\ map isFatigued (driver_docs r) = [true]
  /\ map baseTime (db_routes tired_db) = [30]
  /\ (exists fields cost,
        processedOrders r = [Object fields cost]
        /\ assignedDriver fields = Some 1%N
        /\ actualDeliveryTime fields = Some 30)
  /\ Js.Math_round (30 * (13 # 10)) = 39%Z
  /\ map (fun driver =>
            calculateDeliveryTime (RouteDoc (new_route "RT100" 10 High 30))
                                  (DriverDoc driver) 30)
         (driver_docs r)
     = [Some 39%Z].
Proof.
  vm_compute. repeat split.
  eexists _, _. repeat split.
Qed.


(** ** The theorems at work on the sample data *)

Lemma fuel_cost_by_distance_and_traffic_witness :
  calculateFuelCost (new_route "RT005" 8 Low 25)
  <= calculateFuelCost (new_route "RT001" 15 Low 45).
Proof.
  destruct fuel_cost_by_distance_and_traffic as (_ & Hmono & _).
  apply Hmono; [reflexivity | cbn; lra].
Defined.

Lemma driver_count_out_of_range_witness :
  validateSimulationInputs (request (-1) "09:00" 8) = Respond DriverCountOutOfRange.
Proof.
  apply (driver_count_out_of_range (-1) "09:00" 8);
    [ intros H; discriminate H | discriminate | intros H; discriminate H | left; reflexivity ].
Defined.

Lemma bad_time_format_iff_witness :
  validateSimulationInputs (request 3 "25:00" 8) = Respond BadTimeFormat
  <-> is_HH_MM "25:00" || is_H_MM "25:00" = false.
Proof.
  apply (bad_time_format_iff 3 "25:00" 8);
    [ split; discriminate | split; discriminate | discriminate ].
Defined.

Lemma fractional_counts_pass_validation_witness :
  let r := post_simulation limit_whole next_id sample_db (request (5 # 2) "09:00" (15 # 2)) in
  validateSimulationInputs (request (5 # 2) "09:00" (15 # 2)) = Next
  /\ r = simulation limit_whole next_id sample_db (request (5 # 2) "09:00" (15 # 2)) (5 # 2)
  /\ (forall h' : Q,
        1 <= h' /\ h' <= 24 ->
        let r' := post_simulation limit_whole next_id sample_db (request (5 # 2) "09:00" h') in
        response r' = response r /\ processedOrders r' = processedOrders r
        /\ driver_docs r' = driver_docs r)
  /\ ((forall k : Z, ~ (5 # 2) == inject_Z k) ->
      inject_Z (Z.of_nat (length (limit_whole (5 # 2) (db_drivers sample_db)))) <= 5 # 2 ->
      r = {| response :=
               Status 400
                 (NotEnoughDrivers (length (limit_whole (5 # 2) (db_drivers sample_db)))
                                   (5 # 2));
             database := sample_db;
             driver_docs := limit_whole (5 # 2) (db_drivers sample_db);
             processedOrders := [] |})
  /\ (forall (i : nat) (order : Order),
        inject_Z (Z.of_nat i) - 1 < 5 # 2 -> 5 # 2 < inject_Z (Z.of_nat i) ->
        db_orders sample_db !! i = Some order ->
        resolves (db_routes sample_db) order = true ->
        (response r
         = Status 400
             (NotEnoughDrivers (length (limit_whole (5 # 2) (db_drivers sample_db)))
                               (5 # 2))
         \/ response r = SimulationFailed)
        /\ database r = sample_db).
Proof.
  apply (fractional_counts_pass_validation limit_whole next_id sample_db (5 # 2) "09:00" (15 # 2));
    [ split; discriminate | split; discriminate | reflexivity ].
Defined.

Lemma unresolved_order_skipped_and_late_witness :
  let r := post_simulation limit_whole next_id mixed_db (request 2 "09:00" 8) in
  (forall drivers acc index order,
     resolves (db_routes mixed_db) order = false ->
     inherited (assignedRoute order) = false ->
     processOrder 2 drivers (make_routeMap (db_routes mixed_db)) acc index order
     = Some (acc, Document order))
  /\ (forall res delivery fuel id,
        response r = Json res delivery fuel id ->
        delivery
        = [ ("On Time"%string,
             Z.of_nat (resolved_count (db_routes mixed_db) (db_orders mixed_db)));
            ("Late"%string,
             Z.of_nat (unresolved_count (db_routes mixed_db) (db_orders mixed_db))) ]
        /\ Results.onTimeDeliveries res
           = resolved_count (db_routes mixed_db) (db_orders mixed_db)
        /\ Forall2 (fun order p =>
                      resolves (db_routes mixed_db) order = false -> p = Document order)
                   (db_orders mixed_db) (processedOrders r))
  /\ (forall (n : Z) (s : string) (h : Q),
        request 2 "09:00" 8 = request (inject_Z n) s h ->
        limit_whole (inject_Z n) (db_drivers mixed_db)
        = take (Z.to_nat n) (db_drivers mixed_db) ->
        (Z.to_nat n <= length (db_drivers mixed_db))%nat ->
        Forall2 (fun order p =>
                   resolves (db_routes mixed_db) order = false ->
                   inherited (assignedRoute order) = false -> p = Document order)
                (db_orders mixed_db) (processedOrders r)).
Proof.
  apply (unresolved_order_skipped_and_late limit_whole next_id mixed_db
           (request 2 "09:00" 8) 2);
    reflexivity.
Defined.


Lemma efficiency_score_of_a_run_witness :
  let onTime := resolved_count (db_routes mixed_db) (db_orders mixed_db) in
  let total := length (db_orders mixed_db) in
  let res :=
    {| Results.totalProfit := 2835;
       Results.efficiencyScore := 4691484174324859 # 70368744177664;
       Results.onTimeDeliveries := 2;
       Results.totalDeliveries := 3;
       Results.fuelCost := 135;
       Results.penalties := 0;
       Results.bonuses := 270 |} in
  Results.onTimeDeliveries res = onTime
  /\ Results.totalDeliveries res = total
  /\ efficiency_score onTime total = Some (Results.efficiencyScore res)
  /\ ((0 < total <= 200)%nat ->
      nearest_hundredth (percentage onTime total) (Results.efficiencyScore res))
  /\ (db_orders mixed_db = [] ->
      Results.efficiencyScore res == 0
      /\ Results.totalProfit res = 0%Z /\ Results.fuelCost res = 0%Z
      /\ Results.penalties res == 0 /\ Results.bonuses res = 0%Z).
Proof.
  apply (efficiency_score_of_a_run limit_whole next_id mixed_db
           (request 2 "09:00" 8) 2 eq_refl eq_refl eq_refl
           {| Results.totalProfit := 2835;
              Results.efficiencyScore := 4691484174324859 # 70368744177664;
              Results.onTimeDeliveries := 2;
              Results.totalDeliveries := 3;
              Results.fuelCost := 135;
              Results.penalties := 0;
              Results.bonuses := 270 |}
           [ ("On Time"%string, 2%Z); ("Late"%string, 1%Z) ]
           [ ("Low Traffic"%string, 75%Z); ("Medium Traffic"%string, 60%Z);
             ("High Traffic"%string, 0%Z) ]
           0%N).
  vm_compute. reflexivity.
Defined.

Lemma insufficient_drivers_witness :
  post_simulation limit_whole next_id sample_db (request 6 "09:00" 8)
  = {| response := Status 400 (NotEnoughDrivers 5 6);
       database := sample_db;
       driver_docs := db_drivers sample_db;
       processedOrders := [] |}.
Proof.
  apply (insufficient_drivers limit_whole next_id sample_db 6 "09:00" 8);
    [ reflexivity | reflexivity | cbn; lia ].
Defined.

Lemma run_overwrites_only_the_fatigue_flag_witness :
  let r := post_simulation limit_whole next_id mixed_db (request 2 "09:00" 8) in
  db_drivers (database r) = db_drivers mixed_db
  /\ db_routes (database r) = db_routes mixed_db
  /\ db_orders (database r) = db_orders mixed_db
  /\ (response r = SimulationFailed
      \/ Forall2 projection_of (db_orders mixed_db) (processedOrders r))
  /\ Forall2 fatigue_overwritten (limit_whole 2 (db_drivers mixed_db)) (driver_docs r).
Proof.
  apply (run_overwrites_only_the_fatigue_flag limit_whole next_id mixed_db
           (request 2 "09:00" 8) 2);
    reflexivity.
Defined.

(** ** Where the code parts from the written specification *)

(** C2: the one order of the batch names a route the catalog lacks; it comes
    back as it is and adds nothing to the money totals nor to the on-time
    count, yet the breakdown reports one late delivery. *)
Lemma unresolved_order_reported_late :
  let r := post_simulation limit_whole next_id dangling_db (request 1 "09:00" 8) in
  map (resolves (db_routes dangling_db)) (db_orders dangling_db) = [false]
  /\ map Document (db_orders dangling_db) = processedOrders r
  /\ exists res fuel id,
       response r = Json res [("On Time"%string, 0%Z); ("Late"%string, 1%Z)] fuel id
       /\ Results.totalProfit res = 0%Z /\ Results.fuelCost res = 0%Z
       /\ Results.penalties res = 0 /\ Results.bonuses res = 0%Z
       /\ Results.onTimeDeliveries res = 0%nat.
Proof.
  cbv zeta. split; [reflexivity | split; [reflexivity |]].
  eexists _, _, _. repeat split.
Qed.

(** C3: the run on the one tired driver. The document it fetched says
    [isFatigued = false]; when the handler returns, the same document says
    [true]. *)
Lemma fatigue_flag_written_in_place :
  let fetched := limit_whole 1 (db_drivers tired_db) in
  let r := post_simulation limit_whole next_id tired_db (request 1 "09:00" 8) in
  map isFatigued fetched = [false]
  /\ map isFatigued (driver_docs r) = [true]
  /\ driver_docs r <> fetched.
Proof. vm_compute. repeat split. discriminate. Qed.

(** C4: a driver count of -1 without a start time, and a driver count of 0,
    are answered with the missing-parameters error, not with the
    driver-count error. *)
Lemma driver_count_error_preempted :
  -1 < 1
  /\ validateSimulationInputs
       {| availableDrivers := Some (-1); startTime := None; maxHoursPerDay := Some 8 |}
     = Respond MissingField
  /\ 0 < 1
  /\ validateSimulationInputs (request 0 "09:00" 8) = Respond MissingField
  /\ Respond MissingField <> Respond DriverCountOutOfRange.
Proof. repeat split. discriminate. Qed.

(** C5: the start time 9:30, whose hour has one digit, passes; the empty
    start time is answered with the missing-parameters error and a malformed
    one next to a driver count of 99 with the driver-count error. *)
Lemma one_digit_hour_accepted :
  is_HH_MM "9:30" = false
  /\ validateSimulationInputs (request 3 "9:30" 8) = Next
  /\ is_HH_MM "" = false
  /\ validateSimulationInputs (request 3 "" 8) = Respond MissingField
  /\ is_HH_MM "soon" = false
  /\ validateSimulationInputs (request 99 "soon" 8) = Respond DriverCountOutOfRange.
Proof. repeat split. Qed.

(** C8: 23 orders of 160 resolve, an exact share of 14.375 per cent, which
    rounds to 14.38. In binary64 the quotient times 100 times 100 comes out
    just below 1437.5: the run reports the double of 14.37. *)
Lemma efficiency_score_tie_rounded_down :
  let r := post_simulation limit_whole next_id score_db (request 1 "09:00" 8) in
  length (db_orders score_db) = 160%nat
  /\ resolved_count (db_routes score_db) (db_orders score_db) = 23%nat
  /\ percentage 23 160 == 14375 # 1000
  /\ exists res delivery fuel id,
       response r = Json res delivery fuel id
       /\ Results.onTimeDeliveries res = 23%nat
       /\ Results.totalDeliveries res = 160%nat
       /\ hundredths 1437 = Some (Results.efficiencyScore res)
       /\ Results.efficiencyScore res < 1437001 # 100000
       /\ ~ rounded_to_2_places (percentage 23 160) (Results.efficiencyScore res).
Proof.
  cbv zeta.
  assert (E : response (post_simulation limit_whole next_id score_db (request 1 "09:00" 8))
              = Json {| Results.totalProfit := 9775;
                        Results.efficiencyScore := 8089590830664253 # 562949953421312;
                        Results.onTimeDeliveries := 23;
                        Results.totalDeliveries := 160;
                        Results.fuelCost := 1725;
                        Results.penalties := 0;
                        Results.bonuses := 0 |}
                     [ ("On Time"%string, 23%Z); ("Late"%string, 137%Z) ]
                     [ ("Low Traffic"%string, 1725%Z); ("Medium Traffic"%string, 0%Z);
                       ("High Traffic"%string, 0%Z) ]
                     0%N)
    by (vm_compute; reflexivity).
  split; [vm_compute; reflexivity | split; [vm_compute; reflexivity | split; [reflexivity |]]].
  rewrite E. eexists _, _, _, _. split; [reflexivity |].
  cbn [Results.onTimeDeliveries Results.totalDeliveries Results.efficiencyScore].
  split; [reflexivity | split; [reflexivity | split; [vm_compute; reflexivity | split; [reflexivity |]]]].
  intros (k & Hlo & Hhi & y' & Hy' & Heq).
  assert (Hx : percentage 23 160 == 14375 # 1000) by reflexivity.
  assert (Hk : inject_Z 1437 < inject_Z k /\ inject_Z k < inject_Z 1439).
  { change (inject_Z 1437) with 1437. change (inject_Z 1439) with 1439.
    unfold Qdiv in Hlo, Hhi. change (/ 100) with (1 # 100) in Hlo, Hhi.
    revert Hlo Hhi Hx. generalize (percentage 23 160) (inject_Z k). intros x z Hlo Hhi Hx.
    split; lra. }
  rewrite <- !Zlt_Qlt in Hk. assert (Hk' : k = 1438%Z) by lia. subst k.
  vm_compute in Hy'. injection Hy' as <-.
  vm_compute in Heq. discriminate Heq.
Qed.

(** C10: on the sample data a request for 2.5 drivers passes validation and
    is then refused. The store that keeps the whole part of the count hands
    back two of the five drivers, and the answer is the not-enough-drivers
    error; whatever the store hands back, the answer is that error or, the
    fourth order finding no driver at position 0.5, the 500 of the [catch]
    clause, and nothing is stored. *)
Lemma fractional_count_rejected :
  validateSimulationInputs (request (5 # 2) "09:00" 8) = Next
  /\ length (db_drivers sample_db) = 5%nat
  /\ post_simulation limit_whole next_id sample_db (request (5 # 2) "09:00" 8)
     = {| response := Status 400 (NotEnoughDrivers 2 (5 # 2));
          database := sample_db;
          driver_docs := take 2 (db_drivers sample_db);
          processedOrders := [] |}
  /\ (forall (limit : Q -> list Driver -> list Driver) (new_id : Database -> ObjectId),
        let r := post_simulation limit new_id sample_db (request (5 # 2) "09:00" 8) in
        (response r
         = Status 400
             (NotEnoughDrivers (length (limit (5 # 2) (db_drivers sample_db))) (5 # 2))
         \/ response r = SimulationFailed)
        /\ database r = sample_db).
Proof.
  split; [reflexivity | split; [reflexivity | split; [reflexivity |]]].
  intros limit new_id. cbv zeta.
  rewrite (post_simulation_next limit new_id sample_db (request (5 # 2) "09:00" 8) (5 # 2))
    by reflexivity.
  apply (fractional_count_not_served limit new_id sample_db (request (5 # 2) "09:00" 8)
           (5 # 2) 3 (new_order "ORD004" 750 "RT004"));
    reflexivity || discriminate.
Qed.

(** * Further properties of the endpoint *)

(** ** The hour count *)

(** With the three fields present and the driver count in range, an hour
    count outside [1,24] is answered with the hour error, whatever the start
    time looks like. *)
Theorem hours_out_of_range (a : Q) (s : string) (h : Q) :
  1 <= a /\ a <= 50 -> s <> ""%string -> ~ h == 0 ->
  h < 1 \/ 24 < h ->
  validateSimulationInputs (request a s h) = Respond HoursOutOfRange.
Proof.
  intros Ha Hs Hh Hout. rewrite validate_present.
  - apply in_bounds_iff in Ha. apply out_of_bounds_iff in Hout.
    rewrite Ha, Hout. reflexivity.
  - apply at_least_one_nonzero, Ha.
  - exact Hs.
  - exact Hh.
Qed.

Lemma hours_out_of_range_witness :
  validateSimulationInputs (request 3 "not a time" 25) = Respond HoursOutOfRange.
Proof.
  apply (hours_out_of_range 3 "not a time" 25);
    [ split; discriminate | discriminate | intros H; discriminate H | right; reflexivity ].
Defined.

(** ** The totals do not look at the drivers *)

Lemma processOrder_totals_agree (a a' : Q) (drivers drivers' : list Driver)
    (routeMap : RouteMap) (acc acc1 acc2 : Totals) (index index' : nat)
    (order : Order) (p1 p2 : ProcessedOrder) :
  processOrder a drivers routeMap acc index order = Some (acc1, p1) ->
  processOrder a' drivers' routeMap acc index' order = Some (acc2, p2) ->
  acc1 = acc2.
Proof.
  unfold processOrder.
  destruct (routeMap_get routeMap (assignedRoute order)) as [route| |].
  - rewrite !calculateDeliveryTime_as_called. cbn [mbind option_bind].
    destruct (Js.index drivers _) as [d1|]; cbn [mbind option_bind]; [| discriminate].
    destruct (Js.index drivers' _) as [d2|]; cbn [mbind option_bind]; [| discriminate].
    intros [= <- _] [= <- _]. reflexivity.
  - destruct (Js.index drivers _) as [d1|]; cbn [mbind option_bind]; [| discriminate].
    destruct (Js.index drivers' _) as [d2|]; cbn [mbind option_bind]; [| discriminate].
    intros [= <- _] [= <- _]. reflexivity.
  - intros [= <- _] [= <- _]. reflexivity.
Qed.

Lemma mapOrders_totals_agree (a a' : Q) (drivers drivers' : list Driver)
    (routeMap : RouteMap) (orders : list Order) :
  forall (acc acc1 acc2 : Totals) (index index' : nat) (ps1 ps2 : list ProcessedOrder),
    mapOrders a drivers routeMap acc index orders = Some (acc1, ps1) ->
    mapOrders a' drivers' routeMap acc index' orders = Some (acc2, ps2) ->
    acc1 = acc2.
Proof.
  induction orders as [|order rest IH]; intros acc acc1 acc2 index index' ps1 ps2;
    cbn [mapOrders].
  - intros [= <- _] [= <- _]. reflexivity.
  - destruct (processOrder a drivers routeMap acc index order)
      as [[b1 p1]|] eqn:E1; cbn [mbind option_bind]; [| discriminate].
    destruct (processOrder a' drivers' routeMap acc index' order)
      as [[b2 p2]|] eqn:E2; cbn [mbind option_bind]; [| discriminate].
    pose proof (processOrder_totals_agree _ _ _ _ _ _ _ _ _ _ _ _ _ E1 E2) as <-.
    destruct (mapOrders a drivers routeMap b1 (S index) rest)
      as [[c1 q1]|] eqn:F1; cbn [mbind option_bind]; [| discriminate].
    destruct (mapOrders a' drivers' routeMap b1 (S index') rest)
      as [[c2 q2]|] eqn:F2; cbn [mbind option_bind]; [| discriminate].
    intros [= <- _] [= <- _]. eapply IH; eassumption.
Qed.

(** ** Round-robin *)

(** With a whole count [n], the order at position [j] that the table has a
    member for goes to the driver at position [j mod n]. *)
Lemma mapOrders_round_robin (n : Z) (drivers : list Driver)
    (routeMap : RouteMap) (orders : list Order) :
  (0 < n)%Z ->
  forall (acc acc' : Totals) (index : nat) (processed : list ProcessedOrder),
    mapOrders (inject_Z n) drivers routeMap acc index orders = Some (acc', processed) ->
    forall (j : nat) (order : Order),
      orders !! j = Some order ->
      match routeMap_get routeMap (assignedRoute order) with
      | Resolved _ =>
          exists driver fields cost,
            drivers !! Z.to_nat (Z.of_nat (index + j) mod n) = Some driver
            /\ processed !! j = Some (Object fields cost)
            /\ assignedDriver fields = Some (_id driver)
      | Inherited =>
          exists driver bonus,
            drivers !! Z.to_nat (Z.of_nat (index + j) mod n) = Some driver
            /\ processed !! j = Some (Unpriced order (_id driver) bonus)
      | NoMember => processed !! j = Some (Document order)
      end.
Proof.
  intros Hn. induction orders as [|order rest IH];
    intros acc acc' index processed; cbn [mapOrders].
  - intros _ j o Hj. discriminate Hj.
  - destruct (processOrder (inject_Z n) drivers routeMap acc index order)
      as [[acc1 p]|] eqn:E1; cbn [mbind option_bind]; [| discriminate].
    destruct (mapOrders (inject_Z n) drivers routeMap acc1 (S index) rest)
      as [[acc2 ps]|] eqn:E2; cbn [mbind option_bind]; [| discriminate].
    intros [= _ <-] j o Hj. destruct j as [|j].
    + injection Hj as <-. unfold processOrder in E1. rewrite Nat.add_0_r.
      destruct (routeMap_get routeMap (assignedRoute order)) as [route| |].
      * rewrite calculateDeliveryTime_as_called, index_rem_whole in E1 by exact Hn.
        cbn [mbind option_bind] in E1.
        destruct (drivers !! Z.to_nat (Z.of_nat index mod n)) as [driver|];
          cbn [mbind option_bind] in E1; [| discriminate].
        injection E1 as _ <-. eexists _, _, _. repeat split.
      * rewrite index_rem_whole in E1 by exact Hn.
        destruct (drivers !! Z.to_nat (Z.of_nat index mod n)) as [driver|];
          cbn [mbind option_bind] in E1; [| discriminate].
        injection E1 as _ <-. eexists _, _. repeat split.
      * injection E1 as _ <-. reflexivity.
    + specialize (IH _ _ _ _ E2 j o Hj).
      replace (index + S j)%nat with (S index + j)%nat by lia. exact IH.
Qed.

Lemma lookup_checked_take (k : nat) (docs : list Driver) (i : nat) (d' : Driver) :
  map checkFatigue (take k docs) !! i = Some d' ->
  exists d, docs !! i = Some d /\ _id d' = _id d.
Proof.
  revert k i. induction docs as [|d docs IH]; intros [|k] [|i]; cbn; try discriminate.
  - intros [= <-]. eauto.
  - intros H. apply (IH k i), H.
Qed.

(** An order that names an inherited member counts among those of its
    batch. *)
Lemma inherited_count_pos (routes : list Route) (orders : list Order) (i : nat)
    (order : Order) :
  orders !! i = Some order -> names_inherited routes order = true ->
  inherited_count routes orders <> 0%nat.
Proof.
  unfold inherited_count. revert i.
  induction orders as [|o os IH]; intros i Hi Hinh; [discriminate Hi |].
  cbn [List.filter]. destruct i as [|i].
  - injection Hi as ->. rewrite Hinh. discriminate.
  - destruct (names_inherited routes o); [discriminate | eapply IH; eassumption].
Qed.

(** The validator answers with an error or not at all. *)
Lemma validate_answers_with_an_error (body : SimulationBody) (r : Response) :
  validateSimulationInputs body = Respond r -> exists code e, r = Status code e.
Proof.
  unfold validateSimulationInputs.
  destruct (availableDrivers body), (startTime body), (maxHoursPerDay body);
    repeat match goal with
           | |- context [if ?b then _ else _] => destruct b
           end;
    intros [= <-]; eexists _, _; reflexivity.
Qed.

Section FurtherEndpoint.

Variable limit : Q -> list Driver -> list Driver.
Variable new_id : Database -> ObjectId.

(** A valid request with a whole driver count the roster covers: the loop
    ends and the handler goes on to the report. *)
Lemma post_simulation_whole (db : Database) (n : Z) (s : string) (h : Q) :
  validateSimulationInputs (request (inject_Z n) s h) = Next ->
  limit (inject_Z n) (db_drivers db) = take (Z.to_nat n) (db_drivers db) ->
  (Z.to_nat n <= length (db_drivers db))%nat ->
  (0 < n)%Z
  /\ exists acc processed,
       mapOrders (inject_Z n) (map checkFatigue (take (Z.to_nat n) (db_drivers db)))
                 (make_routeMap (db_routes db)) initial_totals 0 (db_orders db)
         = Some (acc, processed)
       /\ post_simulation limit new_id db (request (inject_Z n) s h)
          = report new_id db (request (inject_Z n) s h)
                   (map checkFatigue (take (Z.to_nat n) (db_drivers db)))
                   (db_orders db) acc processed.
Proof.
  intros Hv Hlimit Hlen. pose proof (validate_whole_count n s h Hv) as Hn.
  split; [lia |].
  rewrite (post_simulation_next limit new_id db _ (inject_Z n)) by (exact Hv || reflexivity).
  apply simulation_whole; assumption.
Qed.

(** The answer looks at the routes and the orders only: two valid requests
    on stores with the same catalog and the same batch, each for a whole
    count of drivers that its roster covers, get the same figures and
    breakdowns, or both the 500 of a refused save, whatever the rosters, the
    driver counts, the start times and the hour counts. *)
Theorem report_independent_of_drivers (db db' : Database) (n n' : Z)
    (s s' : string) (h h' : Q) :
  db_routes db = db_routes db' -> db_orders db = db_orders db' ->
  validateSimulationInputs (request (inject_Z n) s h) = Next ->
  limit (inject_Z n) (db_drivers db) = take (Z.to_nat n) (db_drivers db) ->
  (Z.to_nat n <= length (db_drivers db))%nat ->
  validateSimulationInputs (request (inject_Z n') s' h') = Next ->
  limit (inject_Z n') (db_drivers db') = take (Z.to_nat n') (db_drivers db') ->
  (Z.to_nat n' <= length (db_drivers db'))%nat ->
  let r := post_simulation limit new_id db (request (inject_Z n) s h) in
  let r' := post_simulation limit new_id db' (request (inject_Z n') s' h') in
  (exists res delivery fuel,
     response r = Json res delivery fuel (new_id db)
     /\ response r' = Json res delivery fuel (new_id db'))
  \/ (response r = SimulationFailed /\ response r' = SimulationFailed).
Proof.
  intros Hr Ho Hv Hlimit Hlen Hv' Hlimit' Hlen'. cbv zeta.
  destruct (post_simulation_whole db n s h Hv Hlimit Hlen) as (_ & acc & ps & E & ->).
  destruct (post_simulation_whole db' n' s' h' Hv' Hlimit' Hlen') as (_ & acc' & ps' & E' & ->).
  rewrite <- Hr, <- Ho in E'.
  pose proof (mapOrders_totals_agree _ _ _ _ _ _ _ _ _ _ _ _ _ E E') as <-.
  unfold report. rewrite <- Ho.
  destruct (Js.Math_round_number (totalProfit acc)),
    (efficiency_score (onTimeDeliveries acc) (length (db_orders db))),
    (Js.Math_round_number (totalFuelCost acc)); cbn [response sim_id]; eauto 6.
Qed.

(** Round-robin: the order at position [i] of the batch, when it resolves,
    goes to the driver at position [i mod n] of the roster; the positions of
    the orders that do not resolve count too. *)
Theorem round_robin_assignment (db : Database) (n : Z) (s : string) (h : Q) :
  validateSimulationInputs (request (inject_Z n) s h) = Next ->
  limit (inject_Z n) (db_drivers db) = take (Z.to_nat n) (db_drivers db) ->
  (Z.to_nat n <= length (db_drivers db))%nat ->
  forall (i : nat) (order : Order),
    db_orders db !! i = Some order ->
    resolves (db_routes db) order = true ->
    exists driver fields cost,
      db_drivers db !! Z.to_nat (Z.of_nat i mod n) = Some driver
      /\ processedOrders (post_simulation limit new_id db (request (inject_Z n) s h)) !! i
         = Some (Object fields cost)
      /\ assignedDriver fields = Some (_id driver).
Proof.
  intros Hv Hlimit Hlen i order Hi Hres.
  destruct (post_simulation_whole db n s h Hv Hlimit Hlen) as (Hn & acc & ps & E & ->).
  destruct (report_frame new_id db (request (inject_Z n) s h)
              (map checkFatigue (take (Z.to_nat n) (db_drivers db)))
              (db_orders db) acc ps) as (_ & _ & _ & _ & ->).
  pose proof (mapOrders_round_robin n _ _ _ Hn _ _ _ _ E i order Hi) as Hrobin.
  rewrite routeMap_get_catalog in Hrobin. rewrite resolves_catalog in Hres.
  destruct (catalog_route (db_routes db) (assignedRoute order)); [| discriminate].
  destruct Hrobin as (d' & fields & cost & Hd & Hp & Ha).
  apply lookup_checked_take in Hd. destruct Hd as (d & Hd & Hid).
  exists d, fields, cost. rewrite <- Hid. auto.
Qed.

(** In a report the on-time and late counts are not negative and add up to
    the number of orders, which is the total the report gives. *)
Theorem counts_add_up (db : Database) (body : SimulationBody) (res : Results.t)
    (delivery fuel : list Entry) (id : ObjectId) :
  response (post_simulation limit new_id db body) = Json res delivery fuel id ->
  exists onTime late : Z,
    delivery = [ ("On Time"%string, onTime); ("Late"%string, late) ]
    /\ (0 <= onTime)%Z /\ (0 <= late)%Z
    /\ (onTime + late = Z.of_nat (length (db_orders db)))%Z
    /\ onTime = Z.of_nat (Results.onTimeDeliveries res)
    /\ Results.totalDeliveries res = length (db_orders db).
Proof.
  unfold post_simulation.
  destruct (validateSimulationInputs body) as [r|] eqn:Ev.
  - destruct (validate_answers_with_an_error body r Ev) as (code & e & ->).
    discriminate.
  - destruct (availableDrivers body) as [a|]; [| discriminate].
    intros Hjson. apply reported_outcome in Hjson.
    destruct Hjson as (_ & _ & _ & Hon & Hlen & _ & Hdel).
    eexists _, _. split; [exact Hdel |].
    rewrite Hon, Hlen, (resolved_unresolved_count (db_routes db) (db_orders db)).
    repeat split; lia.
Qed.

(** Whatever the request, the Driver, Route and Order collections stay as
    they are; an answer other than a report stores nothing, and a report
    stores exactly one run, under the identifier it returns, with the
    request as its inputs and the reported figures. Of the two breakdowns
    the stored run keeps one sub-document for each entry and nothing of the
    entry itself: the schema has no path for a label or a value. *)
Theorem one_run_stored_per_report (db : Database) (body : SimulationBody) :
  let r := post_simulation limit new_id db body in
  let no_delivery :=
    {| DeliveryBreakdown.onTime := None; DeliveryBreakdown.late := None |} in
  let no_fuel :=
    {| FuelCostBreakdown.routeType := None; FuelCostBreakdown.cost := None |} in
  db_drivers (database r) = db_drivers db
  /\ db_routes (database r) = db_routes db
  /\ db_orders (database r) = db_orders db
  /\ match response r with
     | Json res delivery fuel id =>
         id = new_id db
         /\ db_simulations (database r)
            = db_simulations db
              ++ [ {| sim_id := id; inputs := body; results := res;
                      deliveryBreakdown := map (fun _ => no_delivery) delivery;
                      fuelCostBreakdown := map (fun _ => no_fuel) fuel |} ]
     | Status _ _ => database r = db
     end.
Proof.
  cbv zeta. unfold post_simulation.
  destruct (validateSimulationInputs body) as [r|] eqn:Ev.
  - destruct (validate_answers_with_an_error body r Ev) as (code & e & ->).
    cbn. auto.
  - destruct (availableDrivers body) as [a|]; [| cbn; auto].
    unfold simulation. cbv zeta.
    match goal with |- context [Js.lt ?x a] => destruct (Js.lt x a) end; [cbn; auto |].
    match goal with |- context [mapOrders ?q ?d ?m ?t ?i ?o] =>
      destruct (mapOrders q d m t i o) as [[acc processed]|] end; [| cbn; auto].
    unfold report.
    destruct (Js.Math_round_number (totalProfit acc)),
      (efficiency_score (onTimeDeliveries acc) (length (db_orders db))),
      (Js.Math_round_number (totalFuelCost acc)); cbn; auto 7.
Qed.

(** An order that names no route of the catalog but a member every object
    has, such as [constructor], is taken for an order with a route: it is
    given its driver and counted on time, its delivery time and fuel cost
    are [NaN], and so are the profit and fuel totals. The save then fails:
    the run answers 500 and stores nothing, whatever the other orders
    are. *)
Theorem inherited_member_fails_the_run (db : Database) (n : Z) (s : string) (h : Q)
    (i : nat) (order : Order) :
  validateSimulationInputs (request (inject_Z n) s h) = Next ->
  limit (inject_Z n) (db_drivers db) = take (Z.to_nat n) (db_drivers db) ->
  (Z.to_nat n <= length (db_drivers db))%nat ->
  db_orders db !! i = Some order ->
  resolves (db_routes db) order = false -> inherited (assignedRoute order) = true ->
  let r := post_simulation limit new_id db (request (inject_Z n) s h) in
  response r = SimulationFailed
  /\ database r = db
  /\ exists driver bonus,
       db_drivers db !! Z.to_nat (Z.of_nat i mod n) = Some driver
       /\ processedOrders r !! i = Some (Unpriced order (_id driver) bonus).
Proof.
  intros Hv Hlimit Hlen Hi Hres Hinh. cbv zeta.
  destruct (post_simulation_whole db n s h Hv Hlimit Hlen) as (Hn & acc & ps & E & ->).
  pose proof (mapOrders_round_robin n _ _ _ Hn _ _ _ _ E i order Hi) as Hrobin.
  rewrite routeMap_get_catalog in Hrobin. rewrite resolves_catalog in Hres.
  destruct (catalog_route (db_routes db) (assignedRoute order)) eqn:Ec; [discriminate |].
  rewrite Hinh in Hrobin. destruct Hrobin as (d' & bonus & Hd & Hp).
  apply lookup_checked_take in Hd. destruct Hd as (d & Hd & Hid).
  apply mapOrders_outcome in E. destruct E as (_ & _ & _ & Hnum).
  assert (Hnan : totalProfit acc = Js.NaN).
  { destruct (totalProfit acc) as [q|] eqn:Eq; [| reflexivity].
    exfalso. destruct Hnum as [_ Hzero]; [discriminate |].
    apply (inherited_count_pos (db_routes db) (db_orders db) i order Hi); [| exact Hzero].
    rewrite names_inherited_catalog, Ec. exact Hinh. }
  unfold report. rewrite Hnan. cbn [Js.Math_round_number response database processedOrders].
  split; [reflexivity | split; [reflexivity |]].
  exists d, bonus. rewrite <- Hid. auto.
Qed.

(** A run that does report: a valid request for a whole count of drivers
    which the roster covers, over a catalog without a route named
    [__proto__] and a batch of up to 200 orders of modest figures, none of
    which names an inherited member, is answered with a report, and the run
    is stored. *)
Theorem small_plain_batch_is_reported (db : Database) (n : Z) (s : string) (h : Q) :
  validateSimulationInputs (request (inject_Z n) s h) = Next ->
  limit (inject_Z n) (db_drivers db) = take (Z.to_nat n) (db_drivers db) ->
  (Z.to_nat n <= length (db_drivers db))%nat ->
  plain_catalog (db_routes db) = true ->
  inherited_count (db_routes db) (db_orders db) = 0%nat ->
  (length (db_orders db) <= 200)%nat -> modest_figures db = true ->
  let r := post_simulation limit new_id db (request (inject_Z n) s h) in
  exists res delivery fuel,
    response r = Json res delivery fuel (new_id db)
    /\ Results.onTimeDeliveries res = resolved_count (db_routes db) (db_orders db)
    /\ Results.totalDeliveries res = length (db_orders db)
    /\ length (db_simulations (database r)) = S (length (db_simulations db)).
Proof.
  intros Hv Hlimit Hlen Hplain Hzero Hsmall Hmodest. cbv zeta.
  destruct (post_simulation_whole db n s h Hv Hlimit Hlen) as (_ & acc & ps & E & ->).
  destruct (mapOrders_numbers _ _ _ _ _ _ _ _ E Hzero) as (profit & fuel & Hp & Hf);
    [eexists _, _; split; reflexivity |].
  apply mapOrders_outcome in E. destruct E as (_ & _ & Hon & _).
  cbn [initial_totals onTimeDeliveries Nat.add] in Hon.
  rewrite Hzero, Nat.add_0_r in Hon.
  destruct (efficiency_score_defined (onTimeDeliveries acc) (length (db_orders db)))
    as [score Hscore]; [exact Hsmall | |].
  { rewrite Hon, (resolved_unresolved_count (db_routes db) (db_orders db)). lia. }
  unfold report. rewrite Hp, Hf, Hscore.
  cbn [Js.Math_round_number response database db_simulations sim_id].
  eexists _, _, _. split; [reflexivity |].
  cbn [Results.onTimeDeliveries Results.totalDeliveries].
  split; [exact Hon | split; [reflexivity |]].
  rewrite length_app. cbn [length]. lia.
Qed.

End FurtherEndpoint.

Lemma report_independent_of_drivers_witness :
  let r := post_simulation limit_whole next_id sample_db (request 1 "09:00" 8) in
  let r' := post_simulation limit_whole next_id sample_db (request 5 "23:59" 24) in
  (exists res delivery fuel,
     response r = Json res delivery fuel (next_id sample_db)
     /\ response r' = Json res delivery fuel (next_id sample_db))
  \/ (response r = SimulationFailed /\ response r' = SimulationFailed).
Proof.
  apply (report_independent_of_drivers limit_whole next_id sample_db sample_db
           1 5 "09:00" "23:59" 8 24);
    try reflexivity; cbn; lia.
Defined.

Lemma round_robin_assignment_witness :
  exists driver fields cost,
    db_drivers mixed_db !! Z.to_nat (Z.of_nat 2 mod 2) = Some driver
    /\ processedOrders (post_simulation limit_whole next_id mixed_db (request 2 "09:00" 8))
         !! 2%nat
       = Some (Object fields cost)
    /\ assignedDriver fields = Some (_id driver).
Proof.
  apply (round_robin_assignment limit_whole next_id mixed_db 2 "09:00" 8
           eq_refl eq_refl) with (order := new_order "ORD003" 1500 "RT003");
    [ cbn; lia | reflexivity | reflexivity ].
Defined.

Lemma counts_add_up_witness :
  exists onTime late : Z,
    [ ("On Time"%string, 0%Z); ("Late"%string, 1%Z) ]
    = [ ("On Time"%string, onTime); ("Late"%string, late) ]
    /\ (0 <= onTime)%Z /\ (0 <= late)%Z
    /\ (onTime + late = Z.of_nat (length (db_orders dangling_db)))%Z
    /\ onTime = 0%Z /\ 1%nat = length (db_orders dangling_db).
Proof.
  apply (counts_add_up limit_whole next_id dangling_db (request 1 "09:00" 8)
           {| Results.totalProfit := 0; Results.efficiencyScore := 0;
              Results.onTimeDeliveries := 0; Results.totalDeliveries := 1;
              Results.fuelCost := 0; Results.penalties := 0; Results.bonuses := 0 |}
           [ ("On Time"%string, 0%Z); ("Late"%string, 1%Z) ]
           [ ("Low Traffic"%string, 0%Z); ("Medium Traffic"%string, 0%Z);
             ("High Traffic"%string, 0%Z) ]
           0%N).
  vm_compute. reflexivity.
Defined.

Lemma inherited_member_fails_the_run_witness :
  let r := post_simulation limit_whole next_id inherited_db (request 1 "09:00" 8) in
  response r = SimulationFailed
  /\ database r = inherited_db
  /\ exists driver bonus,
       db_drivers inherited_db !! Z.to_nat (Z.of_nat 0 mod 1) = Some driver
       /\ processedOrders r !! 0%nat
          = Some (Unpriced (new_order "ORD901" 1200 "constructor") (_id driver) bonus).
Proof.
  apply (inherited_member_fails_the_run limit_whole next_id inherited_db 1 "09:00" 8
           0 (new_order "ORD901" 1200 "constructor"));
    try reflexivity; cbn; lia.
Defined.

Lemma small_plain_batch_is_reported_witness :
  let r := post_simulation limit_whole next_id mixed_db (request 2 "09:00" 8) in
  exists res delivery fuel,
    response r = Json res delivery fuel (next_id mixed_db)
    /\ Results.onTimeDeliveries res
       = resolved_count (db_routes mixed_db) (db_orders mixed_db)
    /\ Results.totalDeliveries res = length (db_orders mixed_db)
    /\ length (db_simulations (database r)) = S (length (db_simulations mixed_db)).
Proof.
  apply (small_plain_batch_is_reported limit_whole next_id mixed_db 2 "09:00" 8);
    try reflexivity; cbn; lia.
Defined.

(** * The token check *)

Lemma split_space_nonempty (s : string) : split_space s <> [].
Proof.
  destruct s as [|c t]; cbn [split_space]; [discriminate |].
  destruct (Ascii.eqb c " "); [discriminate |].
  destruct (split_space t); discriminate.
Qed.

Lemma split_space_whole (s : string) : no_space s = true -> split_space s = [s].
Proof.
  induction s as [|c t IH]; cbn [split_space no_space]; [reflexivity |].
  destruct (Ascii.eqb c " "); cbn [negb andb]; [discriminate |].
  intros Ht. rewrite (IH Ht). reflexivity.
Qed.

Lemma split_space_first (scheme rest : string) :
  no_space scheme = true ->
  split_space (scheme +:+ String " " rest) = scheme :: split_space rest.
Proof.
  induction scheme as [|c t IH].
  - intros _. reflexivity.
  - change (String c t +:+ String " " rest) with (String c (t +:+ String " " rest)).
    cbn [split_space no_space].
    destruct (Ascii.eqb c " "); cbn [negb andb]; [discriminate |].
    intros Ht. rewrite (IH Ht). reflexivity.
Qed.

Lemma append_empty (s : string) : s +:+ "" = s.
Proof.
  induction s as [|c t IH]; [reflexivity |].
  change (String c t +:+ "") with (String c (t +:+ "")). rewrite IH. reflexivity.
Qed.

Lemma append_truthy (scheme rest : string) :
  Js.truthy_string (scheme +:+ String " " rest) = true.
Proof. destruct scheme; reflexivity. Qed.

Section AuthProperties.

Variable jwt_verify : string -> bool.
Variable limit : Q -> list Driver -> list Driver.
Variable new_id : Database -> ObjectId.

(** The token is the second piece of the header cut at the spaces, whatever
    the first piece is ("Bearer" is not asked for) and whatever follows the
    second: the verdict on the request is the verifier's verdict on that
    piece, and only a verified token lets the request reach the validator. *)
Theorem token_is_second_piece (scheme token tail : string) (db : Database)
    (body : SimulationBody) :
  no_space scheme = true -> no_space token = true -> token <> ""%string ->
  tail = ""%string \/ (exists junk, tail = String " " junk) ->
  let header := Some (scheme +:+ String " " (token +:+ tail)) in
  authenticateToken jwt_verify header
    = (if jwt_verify token then Next else Respond InvalidToken)
  /\ api_simulation jwt_verify limit new_id header db body
     = if jwt_verify token then post_simulation limit new_id db body
       else {| response := InvalidToken; database := db;
               driver_docs := []; processedOrders := [] |}.
Proof.
  intros Hs Ht Hne Htail header. subst header.
  assert (Hpiece : split_space (scheme +:+ String " " (token +:+ tail)) !! 1%nat = Some token).
  { rewrite split_space_first by exact Hs. cbn [lookup list_lookup].
    destruct Htail as [-> | [junk ->]].
    - rewrite append_empty, split_space_whole by exact Ht. reflexivity.
    - rewrite split_space_first by exact Ht. reflexivity. }
  assert (Hauth : authenticateToken jwt_verify (Some (scheme +:+ String " " (token +:+ tail)))
                  = if jwt_verify token then Next else Respond InvalidToken).
  { unfold authenticateToken. rewrite append_truthy, Hpiece.
    destruct token; [congruence | reflexivity]. }
  split; [exact Hauth |].
  unfold api_simulation. rewrite Hauth. destruct (jwt_verify token); reflexivity.
Qed.

(** Without a header, with a header of one piece, or with nothing between
    the first space and the end or the next space, the answer is 401 without
    the verifier being asked, whatever the body; nothing is read or stored. *)
Theorem access_token_required (header : option string) (db : Database)
    (body : SimulationBody) :
  header = None
  \/ (exists s, header = Some s /\ no_space s = true)
  \/ (exists scheme, header = Some (scheme +:+ " ") /\ no_space scheme = true)
  \/ (exists scheme rest,
        header = Some (scheme +:+ String " " (String " " rest)) /\ no_space scheme = true) ->
  authenticateToken jwt_verify header = Respond AccessTokenRequired
  /\ api_simulation jwt_verify limit new_id header db body
     = {| response := AccessTokenRequired; database := db;
          driver_docs := []; processedOrders := [] |}.
Proof.
  intros H.
  assert (Hauth : authenticateToken jwt_verify header = Respond AccessTokenRequired).
  { unfold authenticateToken.
    destruct H as [-> | [(s & -> & Hs) | [(scheme & -> & Hs) | (scheme & rest & -> & Hs)]]].
    - reflexivity.
    - destruct s as [|c t]; [reflexivity |].
      cbn [Js.truthy_string]. rewrite split_space_whole by exact Hs. reflexivity.
    - rewrite append_truthy, split_space_first by exact Hs. reflexivity.
    - rewrite append_truthy, split_space_first by exact Hs. reflexivity. }
  split; [exact Hauth |]. unfold api_simulation. rewrite Hauth. reflexivity.
Qed.

End AuthProperties.

(** * The routes that fill the collections *)

Lemma existsb_routeId_false (routes : list Route) (id : string) :
  existsb (fun r => String.eqb (routeId r) id) routes = false
  <-> ~ In id (map routeId routes).
Proof.
  induction routes as [|r routes IH]; cbn [existsb map In].
  - split; [intros _ H; exact H | reflexivity].
  - rewrite orb_false_iff, IH. destruct (String.eqb_spec (routeId r) id) as [E | E].
    + split; [intros [H _]; discriminate H | intros H; exfalso; apply H; left; exact E].
    + split.
      * intros [_ H] [H1 | H1]; [exact (E H1) | exact (H H1)].
      * intros H. split; [reflexivity | intros H1; apply H; right; exact H1].
Qed.

Lemma existsb_orderId_false (orders : list Order) (id : string) :
  existsb (fun o => String.eqb (orderId o) id) orders = false
  <-> ~ In id (map orderId orders).
Proof.
  induction orders as [|o orders IH]; cbn [existsb map In].
  - split; [intros _ H; exact H | reflexivity].
  - rewrite orb_false_iff, IH. destruct (String.eqb_spec (orderId o) id) as [E | E].
    + split; [intros [H _]; discriminate H | intros H; exfalso; apply H; left; exact E].
    + split.
      * intros [_ H] [H1 | H1]; [exact (E H1) | exact (H H1)].
      * intros H. split; [reflexivity | intros H1; apply H; right; exact H1].
Qed.

Lemma NoDup_snoc {A : Type} (l : list A) (x : A) :
  List.NoDup l -> ~ In x l -> List.NoDup (l ++ [x]).
Proof.
  induction l as [|y l IH]; cbn [app]; intros Hl Hx.
  - constructor; [intros [] | constructor].
  - inversion Hl as [|? ? Hy Hl']; subst. constructor.
    + rewrite in_app_iff. cbn [In]. intros [H | [H | []]]; [tauto | subst; apply Hx; left; reflexivity].
    + apply IH; [exact Hl' | intros H; apply Hx; right; exact H].
Qed.

Lemma truthy_string_iff (s : string) : Js.truthy_string s = true <-> s <> ""%string.
Proof. destruct s; cbn; split; congruence. Qed.

Lemma post_routes_sent_appends (db db' : Database) (body : NewRoute.t) (code : nat)
    (route : Route) :
  post_routes db body = (Sent code route, db') ->
  db' = with_routes db (db_routes db ++ [route]).
Proof.
  unfold post_routes.
  destruct (NewRoute.routeId body) as [id|], (NewRoute.distance body) as [d|],
    (NewRoute.trafficLevel body) as [l|], (NewRoute.baseTime body) as [b|];
    try discriminate.
  destruct (negb (Js.truthy_string id) || negb (Js.truthy d)
            || negb (Js.truthy_string l) || negb (Js.truthy b)); [discriminate |].
  destruct (TrafficLevel_of_string l) as [level|]; [| discriminate].
  destruct (existsb _ (db_routes db)); [discriminate |].
  intros [= _ <- <-]. reflexivity.
Qed.

(** [POST /api/routes] stores a route exactly when the four fields are
    there, the identifier and the traffic level are not empty, distance and
    base time are not 0, the traffic level is one of Low, Medium, High and
    no route of the catalog carries the identifier; the route then goes to
    the end of the catalog and comes back with status 201. *)
Theorem route_created_iff (db db' : Database) (body : NewRoute.t) (code : nat)
    (route : Route) :
  post_routes db body = (Sent code route, db')
  <-> code = 201%nat
      /\ NewRoute.routeId body = Some (routeId route) /\ routeId route <> ""%string
      /\ NewRoute.distance body = Some (distance route) /\ ~ distance route == 0
      /\ (exists level, NewRoute.trafficLevel body = Some level
                        /\ TrafficLevel_of_string level = Some (trafficLevel route))
      /\ NewRoute.baseTime body = Some (baseTime route) /\ ~ baseTime route == 0
      /\ ~ In (routeId route) (map routeId (db_routes db))
      /\ db' = with_routes db (db_routes db ++ [route]).
Proof.
  unfold post_routes. split.
  - destruct (NewRoute.routeId body) as [id|], (NewRoute.distance body) as [d|],
      (NewRoute.trafficLevel body) as [l|], (NewRoute.baseTime body) as [b|];
      try discriminate.
    destruct (Js.truthy_string id) eqn:Eid, (Js.truthy d) eqn:Ed,
      (Js.truthy_string l) eqn:El, (Js.truthy b) eqn:Eb; cbn [negb orb];
      try discriminate.
    destruct (TrafficLevel_of_string l) as [level|] eqn:Elevel; [| discriminate].
    destruct (existsb _ (db_routes db)) eqn:Edup; [discriminate |].
    intros [= <- <- <-]. cbn [routeId distance trafficLevel baseTime].
    apply truthy_string_iff in Eid. apply truthy_true_iff in Ed, Eb.
    apply existsb_routeId_false in Edup. eauto 12.
  - destruct route as [id d level b]. cbn [routeId distance trafficLevel baseTime].
    intros (-> & -> & Hid & -> & Hd & (l & -> & Hl) & -> & Hb & Hdup & ->).
    apply truthy_string_iff in Hid. apply truthy_true_iff in Hd, Hb.
    apply existsb_routeId_false in Hdup.
    rewrite Hid, Hd, Hb, Hl, Hdup.
    destruct l; [discriminate Hl | reflexivity].
Qed.

(** Route identifiers stay unique under [POST /api/routes], and a request
    that is refused leaves the store as it was. *)
Theorem post_routes_keeps_ids_unique (db : Database) (body : NewRoute.t) :
  List.NoDup (map routeId (db_routes db)) ->
  List.NoDup (map routeId (db_routes (snd (post_routes db body))))
  /\ (forall code error, fst (post_routes db body) = Refused code error ->
      snd (post_routes db body) = db).
Proof.
  intros Hnd. unfold post_routes.
  destruct (NewRoute.routeId body) as [id|], (NewRoute.distance body) as [d|],
    (NewRoute.trafficLevel body) as [l|], (NewRoute.baseTime body) as [b|];
    try (split; [exact Hnd | reflexivity]).
  destruct (negb (Js.truthy_string id) || negb (Js.truthy d)
            || negb (Js.truthy_string l) || negb (Js.truthy b));
    [split; [exact Hnd | reflexivity] |].
  destruct (TrafficLevel_of_string l) as [level|]; [| split; [exact Hnd | reflexivity]].
  destruct (existsb _ (db_routes db)) eqn:Edup; [split; [exact Hnd | reflexivity] |].
  cbn [snd fst with_routes db_routes]. split; [| discriminate].
  rewrite map_app. cbn [map routeId]. apply NoDup_snoc; [exact Hnd |].
  apply existsb_routeId_false, Edup.
Qed.

Lemma catalog_route_snoc (routes : list Route) (route : Route) (k : string) :
  catalog_route (routes ++ [route]) k
  = if String.eqb (routeId route) k then Some route else catalog_route routes k.
Proof.
  induction routes as [|r routes IH]; cbn [app catalog_route].
  - reflexivity.
  - rewrite IH. destruct (String.eqb (routeId route) k); reflexivity.
Qed.

(** In a catalog without a route named [__proto__], a route that was just
    created under another name is the one the simulation finds under its
    identifier, every order that names it resolves, and the other names are
    looked up as before. *)
Theorem created_route_resolves (db db' : Database) (body : NewRoute.t) (code : nat)
    (route : Route) :
  post_routes db body = (Sent code route, db') ->
  plain_catalog (db_routes db) = true -> routeId route <> "__proto__"%string ->
  routeMap_get (make_routeMap (db_routes db')) (routeId route) = Resolved route
  /\ (forall order, assignedRoute order = routeId route ->
                    resolves (db_routes db') order = true)
  /\ (forall id, id <> routeId route ->
                 routeMap_get (make_routeMap (db_routes db')) id
                 = routeMap_get (make_routeMap (db_routes db)) id)
  /\ plain_catalog (db_routes db') = true.
Proof.
  intros H Hplain Hname. apply post_routes_sent_appends in H. subst db'.
  cbn [with_routes db_routes]. split; [| split; [| split]].
  - rewrite routeMap_get_catalog, catalog_route_snoc, String.eqb_refl. reflexivity.
  - intros order Ho.
    rewrite resolves_catalog, catalog_route_snoc, Ho, String.eqb_refl. reflexivity.
  - intros id Hne. rewrite !routeMap_get_catalog, catalog_route_snoc.
    destruct (String.eqb_spec (routeId route) id) as [E | E]; [congruence | reflexivity].
  - unfold plain_catalog in Hplain |- *. rewrite existsb_app. cbn [existsb].
    apply negb_true_iff in Hplain. rewrite Hplain.
    destruct (String.eqb_spec (routeId route) "__proto__") as [E | E];
      [congruence | reflexivity].
Qed.

Lemma post_orders_accepts (db : Database) (id : string) (v : Q) (r : string) (t : Z) :
  id <> ""%string -> ~ v == 0 -> r <> ""%string -> t <> 0%Z -> valid_date t = true ->
  ~ In id (map orderId (db_orders db)) ->
  post_orders db
    {| NewOrder.orderId := Some id; NewOrder.valueRs := Some v;
       NewOrder.assignedRoute := Some r; NewOrder.deliveryTimestamp := Some t |}
  = (Sent 201 (new_order_at t id v r),
     with_orders db (db_orders db ++ [new_order_at t id v r])).
Proof.
  intros Hid Hv Hr Ht Hdate Hdup. unfold post_orders.
  cbn [NewOrder.orderId NewOrder.valueRs NewOrder.assignedRoute NewOrder.deliveryTimestamp].
  apply truthy_string_iff in Hid, Hr. apply truthy_true_iff in Hv.
  apply Z.eqb_neq in Ht. apply existsb_orderId_false in Hdup.
  rewrite Hid, Hv, Hr, Ht, Hdate, Hdup. reflexivity.
Qed.

(** [POST /api/orders] stores an order exactly when the four fields are
    there, the two identifiers are not empty, the value and the date are not
    0, the date is one a [Date] can hold and no order carries the
    identifier; nothing is asked of the route the order names. The order is
    stored unassigned, on time, without penalty or bonus, at the end of the
    batch. *)
Theorem order_created_iff (db db' : Database) (body : NewOrder.t) (code : nat)
    (order : Order) :
  post_orders db body = (Sent code order, db')
  <-> code = 201%nat
      /\ NewOrder.orderId body = Some (orderId order) /\ orderId order <> ""%string
      /\ NewOrder.valueRs body = Some (valueRs order) /\ ~ valueRs order == 0
      /\ NewOrder.assignedRoute body = Some (assignedRoute order)
      /\ assignedRoute order <> ""%string
      /\ NewOrder.deliveryTimestamp body = Some (deliveryTimestamp order)
      /\ deliveryTimestamp order <> 0%Z
      /\ valid_date (deliveryTimestamp order) = true
      /\ order = new_order_at (deliveryTimestamp order) (orderId order) (valueRs order)
                              (assignedRoute order)
      /\ ~ In (orderId order) (map orderId (db_orders db))
      /\ db' = with_orders db (db_orders db ++ [order]).
Proof.
  unfold post_orders, new_order_at. split.
  - destruct (NewOrder.orderId body) as [id|], (NewOrder.valueRs body) as [v|],
      (NewOrder.assignedRoute body) as [r|], (NewOrder.deliveryTimestamp body) as [t|];
      try discriminate.
    destruct (Js.truthy_string id) eqn:Eid, (Js.truthy v) eqn:Ev,
      (Js.truthy_string r) eqn:Er, (t =? 0)%Z eqn:Et; cbn [negb orb];
      try discriminate.
    destruct (valid_date t) eqn:Edate; cbn [negb]; [| discriminate].
    destruct (existsb _ (db_orders db)) eqn:Edup; [discriminate |].
    intros [= <- <- <-].
    cbn [orderId valueRs assignedRoute deliveryTimestamp].
    apply truthy_string_iff in Eid, Er. apply truthy_true_iff in Ev.
    apply Z.eqb_neq in Et. apply existsb_orderId_false in Edup.
    repeat split; auto.
  - intros (-> & Hid & Hidne & Hv & Hvne & Hr & Hrne & Ht & Htne & Hdate & Ho & Hdup & ->).
    rewrite Hid, Hv, Hr, Ht.
    apply truthy_string_iff in Hidne, Hrne. apply truthy_true_iff in Hvne.
    apply Z.eqb_neq in Htne. apply existsb_orderId_false in Hdup.
    rewrite Hidne, Hvne, Hrne, Htne, Hdate, Hdup. cbn [negb orb].
    rewrite <- Ho. reflexivity.
Qed.

(** Order identifiers stay unique under [POST /api/orders], and a request
    that is refused leaves the store as it was. *)
Theorem post_orders_keeps_ids_unique (db : Database) (body : NewOrder.t) :
  List.NoDup (map orderId (db_orders db)) ->
  List.NoDup (map orderId (db_orders (snd (post_orders db body))))
  /\ (forall code error, fst (post_orders db body) = Refused code error ->
      snd (post_orders db body) = db).
Proof.
  intros Hnd. unfold post_orders.
  destruct (NewOrder.orderId body) as [id|], (NewOrder.valueRs body) as [v|],
    (NewOrder.assignedRoute body) as [r|], (NewOrder.deliveryTimestamp body) as [t|];
    try (split; [exact Hnd | reflexivity]).
  destruct (negb (Js.truthy_string id) || negb (Js.truthy v)
            || negb (Js.truthy_string r) || (t =? 0)%Z);
    [split; [exact Hnd | reflexivity] |].
  destruct (negb (valid_date t)); [split; [exact Hnd | reflexivity] |].
  destruct (existsb _ (db_orders db)) eqn:Edup; [split; [exact Hnd | reflexivity] |].
  cbn [snd fst with_orders db_orders]. split; [| discriminate].
  rewrite map_app. cbn [map orderId]. apply NoDup_snoc; [exact Hnd |].
  apply existsb_orderId_false, Edup.
Qed.

Lemma resolved_count_snoc (routes : list Route) (orders : list Order) (order : Order) :
  resolved_count routes (orders ++ [order])
  = (resolved_count routes orders + if resolves routes order then 1 else 0)%nat.
Proof.
  unfold resolved_count. rewrite List.filter_app, length_app. cbn [List.filter].
  destruct (resolves routes order); reflexivity.
Qed.

Lemma unresolved_count_snoc (routes : list Route) (orders : list Order) (order : Order) :
  unresolved_count routes (orders ++ [order])
  = (unresolved_count routes orders + if resolves routes order then 0 else 1)%nat.
Proof.
  unfold unresolved_count. rewrite List.filter_app, length_app. cbn [List.filter].
  destruct (resolves routes order); reflexivity.
Qed.

Lemma findByIdAndDelete_spec (id : ObjectId) (docs : list Driver) :
  match findByIdAndDelete id docs with
  | (None, rest) => rest = docs /\ forall d, In d docs -> _id d <> id
  | (Some d, rest) =>
      exists before after,
        docs = before ++ d :: after /\ rest = before ++ after
        /\ _id d = id /\ forall x, In x before -> _id x <> id
  end.
Proof.
  induction docs as [|d docs IH]; cbn [findByIdAndDelete].
  - split; [reflexivity | intros d []].
  - destruct (N.eqb_spec (_id d) id) as [E | E].
    + exists [], docs. repeat split; [exact E | intros x []].
    + destruct (findByIdAndDelete id docs) as [[found|] rest].
      * destruct IH as (before & after & -> & -> & Hid & Hbefore).
        exists (d :: before), after. repeat split; [exact Hid |].
        intros x [<- | Hx]; [exact E | apply Hbefore, Hx].
      * destruct IH as [-> Hall]. split; [reflexivity |].
        intros x [<- | Hx]; [exact E | apply Hall, Hx].
Qed.

Lemma findByIdAndDelete_last (docs : list Driver) (d : Driver) :
  (forall x, In x docs -> _id x <> _id d) ->
  findByIdAndDelete (_id d) (docs ++ [d]) = (Some d, docs).
Proof.
  induction docs as [|x docs IH]; intros H; cbn [app findByIdAndDelete].
  - rewrite N.eqb_refl. reflexivity.
  - destruct (N.eqb_spec (_id x) (_id d)) as [E | E].
    + exfalso. apply (H x); [left; reflexivity | exact E].
    + rewrite IH; [reflexivity |]. intros y Hy. apply H. right. exact Hy.
Qed.

(** [DELETE /api/drivers/:id] answers 404 and changes nothing when no driver
    carries the identifier; otherwise it answers 200 and takes out the first
    driver that carries it, the others staying in their order. *)
Theorem delete_drivers_removes_one (db : Database) (id : ObjectId) :
  match delete_drivers db id with
  | (Refused code error, db') =>
      code = 404%nat /\ db' = db /\ forall d, In d (db_drivers db) -> _id d <> id
  | (Sent code message, db') =>
      code = 200%nat
      /\ exists before d after,
           db_drivers db = before ++ d :: after /\ _id d = id
           /\ (forall x, In x before -> _id x <> id)
           /\ db' = with_drivers db (before ++ after)
  end.
Proof.
  unfold delete_drivers. pose proof (findByIdAndDelete_spec id (db_drivers db)) as H.
  destruct (findByIdAndDelete id (db_drivers db)) as [[d|] rest].
  - destruct H as (before & after & Hdocs & -> & Hid & Hbefore).
    split; [reflexivity |]. exists before, d, after. auto.
  - destruct H as [_ Hall]. auto.
Qed.

Section RosterProperties.

Variable new_driver_id : Database -> ObjectId.

(** A driver created through [POST /api/drivers] is stored last, not marked
    fatigued whatever the hours sent, with 0 for hours that are absent; when
    the identifier it got is new to the roster, deleting it by that
    identifier gives back the store as it was. *)
Theorem driver_created_then_deleted (db : Database) (body : NewDriver.t) (name' : string) :
  NewDriver.name body = Some name' -> name' <> ""%string ->
  (forall d, In d (db_drivers db) -> _id d <> new_driver_id db) ->
  exists driver,
    post_drivers new_driver_id db body
      = (Sent 201 driver, with_drivers db (db_drivers db ++ [driver]))
    /\ _id driver = new_driver_id db /\ name driver = name'
    /\ currentShiftHours driver = or_zero (NewDriver.currentShiftHours body)
    /\ past7DayWorkHours driver = or_zero (NewDriver.past7DayWorkHours body)
    /\ isFatigued driver = false
    /\ delete_drivers (with_drivers db (db_drivers db ++ [driver])) (new_driver_id db)
       = (Sent 200 "Driver deleted successfully"%string, db).
Proof.
  intros Hname Hne Hfresh. unfold post_drivers. rewrite Hname.
  apply truthy_string_iff in Hne. rewrite Hne. cbn [negb].
  eexists. split; [reflexivity |]. cbn [_id name currentShiftHours past7DayWorkHours isFatigued].
  repeat split.
  unfold delete_drivers. cbn [with_drivers db_drivers].
  match goal with |- context [db_drivers db ++ [?d]] =>
    pose proof (findByIdAndDelete_last (db_drivers db) d Hfresh) as Hdel
  end.
  cbn [_id] in Hdel. rewrite Hdel.
  destruct db; reflexivity.
Qed.

End RosterProperties.

Section StoreAndRun.

Variable limit : Q -> list Driver -> list Driver.
Variable new_id : Database -> ObjectId.

(** In a catalog without a route named [__proto__], an order that names a
    route the catalog lacks, and no member every object has, is created all
    the same; the next run for a whole count of drivers that the roster
    covers hands it back as it is, and a report of that run does not count
    it on time and counts it late. *)
Theorem dangling_order_accepted_then_late (db : Database) (id : string) (v : Q)
    (r : string) (t : Z) (n : Z) (s : string) (h : Q) :
  id <> ""%string -> ~ v == 0 -> r <> ""%string -> t <> 0%Z -> valid_date t = true ->
  ~ In id (map orderId (db_orders db)) ->
  ~ In r (map routeId (db_routes db)) ->
  inherited r = false -> plain_catalog (db_routes db) = true ->
  validateSimulationInputs (request (inject_Z n) s h) = Next ->
  limit (inject_Z n) (db_drivers db) = take (Z.to_nat n) (db_drivers db) ->
  (Z.to_nat n <= length (db_drivers db))%nat ->
  let order := new_order_at t id v r in
  let db' := with_orders db (db_orders db ++ [order]) in
  let run := post_simulation limit new_id db' (request (inject_Z n) s h) in
  post_orders db
    {| NewOrder.orderId := Some id; NewOrder.valueRs := Some v;
       NewOrder.assignedRoute := Some r; NewOrder.deliveryTimestamp := Some t |}
  = (Sent 201 order, db')
  /\ processedOrders run !! length (db_orders db) = Some (Document order)
  /\ forall res delivery fuel sid,
       response run = Json res delivery fuel sid ->
       delivery
       = [ ("On Time"%string, Z.of_nat (resolved_count (db_routes db) (db_orders db)));
           ("Late"%string, Z.of_nat (S (unresolved_count (db_routes db) (db_orders db)))) ].
Proof.
  intros Hid Hv Hr Ht Hdate Hfresh Hdangling Hinh Hplain Hval Hlimit Hlen order db' run.
  subst run.
  assert (Hres : resolves (db_routes db) order = false).
  { apply existsb_routeId_false, Hdangling. }
  split; [apply post_orders_accepts; assumption | split].
  - pose proof (loop_completes limit new_id db' n s h Hval Hlimit Hlen) as Hall.
    cbn [db' with_orders db_routes db_orders] in Hall.
    assert (Hlast : (db_orders db ++ [order]) !! length (db_orders db) = Some order).
    { rewrite lookup_app_r, Nat.sub_diag by lia. reflexivity. }
    destruct (Forall2_lookup_l _ _ _ _ _ Hall Hlast) as (p & Hp & Hclass).
    unfold classified_on_time in Hclass. rewrite resolves_catalog in Hres.
    destruct (catalog_route (db_routes db) (assignedRoute order)); [discriminate |].
    rewrite Hp, (Hclass Hinh). reflexivity.
  - intros res delivery fuel sid Hjson.
    rewrite (post_simulation_next limit new_id db' _ (inject_Z n)) in Hjson
      by (exact Hval || reflexivity).
    apply reported_outcome in Hjson. destruct Hjson as (_ & _ & _ & _ & _ & _ & ->).
    cbn [db' with_orders db_routes db_orders].
    rewrite resolved_count_snoc, unresolved_count_snoc, Hres, Nat.add_0_r.
    replace (unresolved_count (db_routes db) (db_orders db) + 1)%nat
      with (S (unresolved_count (db_routes db) (db_orders db))) by lia.
    reflexivity.
Qed.

(** After [POST /api/init-data], whatever the store held, a valid request
    for one to five drivers is answered with the same report: the eight
    sample orders on time, score 100, profit 9480, fuel 870, no penalty,
    bonuses 650; a valid request for more drivers is answered with the
    not-enough-drivers error, five found. *)
Theorem sample_run_after_init (id_of : nat -> ObjectId) (date_of : nat -> Z)
    (db : Database) (n : Z) (s : string) (h : Q) :
  validateSimulationInputs (request (inject_Z n) s h) = Next ->
  limit (inject_Z n) (sampleDrivers id_of) = take (Z.to_nat n) (sampleDrivers id_of) ->
  let db' := init_data id_of date_of db in
  let r := post_simulation limit new_id db' (request (inject_Z n) s h) in
  ((n <= 5)%Z ->
   exists res,
     response r
     = Json res [ ("On Time"%string, 8%Z); ("Late"%string, 0%Z) ]
         [ ("Low Traffic"%string, 190%Z); ("Medium Traffic"%string, 120%Z);
           ("High Traffic"%string, 560%Z) ]
         (new_id db')
     /\ Results.totalProfit res = 9480%Z /\ Results.efficiencyScore res == 100
     /\ Results.onTimeDeliveries res = 8%nat /\ Results.totalDeliveries res = 8%nat
     /\ Results.fuelCost res = 870%Z /\ Results.penalties res == 0
     /\ Results.bonuses res = 650%Z)
  /\ ((5 < n)%Z -> response r = Status 400 (NotEnoughDrivers 5 (inject_Z n)))
  /\ db_simulations db' = db_simulations db.
Proof.
  intros Hv Hlimit db' r. subst r. split; [| split; [| reflexivity]].
  - intros Hle.
    destruct (post_simulation_whole limit new_id db' n s h Hv Hlimit)
      as (Hn & acc & ps & E & ->); [cbn; lia |].
    cbn [db' init_data db_routes db_orders] in E.
    (* the totals are those of a run with one driver *)
    destruct (mapOrders_whole 1 [new_driver 0%N "" 0 0]
                (make_routeMap (db_routes sample_db)) (imap (dated date_of) (db_orders sample_db))
                eq_refl (le_n 1) initial_totals 0%nat) as [[acc0 ps0] E0].
    pose proof (mapOrders_totals_agree _ _ _ _ _ _ _ _ _ _ _ _ _ E E0) as ->.
    assert (Hsum :
      option_map
        (fun x : Totals * list ProcessedOrder =>
           (Js.Math_round_number (totalProfit (fst x)),
            Js.Math_round_number (totalFuelCost (fst x)),
            Js.Math_round (totalBonuses (fst x)), Qred (totalPenalties (fst x)),
            onTimeDeliveries (fst x),
            (Js.Math_round (fuelCostByTraffic (fst x) Low),
             Js.Math_round (fuelCostByTraffic (fst x) Medium),
             Js.Math_round (fuelCostByTraffic (fst x) High))))
        (mapOrders (inject_Z 1) [new_driver 0%N "" 0 0]
           (make_routeMap (db_routes sample_db)) initial_totals 0
           (imap (dated date_of) (db_orders sample_db)))
      = Some (Some 9480%Z, Some 870%Z, 650%Z, 0, 8%nat, (190%Z, 120%Z, 560%Z)))
      by (vm_compute; reflexivity).
    rewrite E0 in Hsum. cbn [option_map fst] in Hsum.
    injection Hsum as HP HF HB Hpen Hon HL HM HH.
    assert (Hscore : efficiency_score 8 8 = Some (7036874417766400 # 70368744177664))
      by (vm_compute; reflexivity).
    unfold report, round_entry. cbn [db' init_data db_orders].
    change (length (imap (dated date_of) (db_orders sample_db))) with 8%nat.
    rewrite HP, HF, HB, Hon, HL, HM, HH, Hscore. cbn [response sim_id].
    eexists. split; [reflexivity |].
    cbn [Results.totalProfit Results.efficiencyScore Results.onTimeDeliveries
         Results.totalDeliveries Results.fuelCost Results.penalties Results.bonuses].
    repeat split; try reflexivity.
    rewrite <- (Qred_correct (totalPenalties acc0)), Hpen. reflexivity.
  - intros Hgt.
    rewrite (post_simulation_next limit new_id db' _ (inject_Z n)) by (exact Hv || reflexivity).
    unfold simulation. cbn [db' init_data db_drivers]. rewrite Hlimit, take_ge by (cbn; lia).
    assert (Hlt : Js.lt (inject_Z (Z.of_nat (length (sampleDrivers id_of)))) (inject_Z n) = true).
    { apply lt_true_iff. rewrite <- Zlt_Qlt. cbn. lia. }
    rewrite Hlt. reflexivity.
Qed.

End StoreAndRun.

(** ** These properties at work *)

Ltac distinct :=
  repeat (constructor;
          [ cbn; intros H;
            repeat (destruct H as [H | H]; [discriminate H |]); exact H | ]);
  constructor.

Lemma token_is_second_piece_witness :
  authenticateToken sample_verify (Some "Token good and more"%string) = Next
  /\ api_simulation sample_verify limit_whole next_id (Some "Token good and more"%string)
       sample_db (request 3 "09:00" 8)
     = post_simulation limit_whole next_id sample_db (request 3 "09:00" 8).
Proof.
  apply (token_is_second_piece sample_verify limit_whole next_id
           "Token" "good" " and more" sample_db (request 3 "09:00" 8));
    [ reflexivity | reflexivity | discriminate | right; eexists; reflexivity ].
Defined.

Lemma access_token_required_witness :
  authenticateToken sample_verify (Some "good"%string) = Respond AccessTokenRequired
  /\ api_simulation sample_verify limit_whole next_id (Some "good"%string)
       sample_db (request 3 "09:00" 8)
     = {| response := AccessTokenRequired; database := sample_db;
          driver_docs := []; processedOrders := [] |}.
Proof.
  apply (access_token_required sample_verify limit_whole next_id (Some "good"%string)).
  right; left. eexists. split; reflexivity.
Defined.

Lemma route_created_iff_witness :
  post_routes sample_db route_RT006
  = (Sent 201 (new_route "RT006" 20 Medium 60),
     with_routes sample_db (db_routes sample_db ++ [new_route "RT006" 20 Medium 60])).
Proof.
  apply (route_created_iff sample_db _ route_RT006 201 (new_route "RT006" 20 Medium 60)).
  repeat split; try discriminate.
  - eexists. split; reflexivity.
  - cbn. intros H. repeat (destruct H as [H | H]; [discriminate H |]). exact H.
Defined.

Lemma post_routes_keeps_ids_unique_witness :
  List.NoDup (map routeId (db_routes (snd (post_routes sample_db route_RT006))))
  /\ (forall code error, fst (post_routes sample_db route_RT006) = Refused code error ->
      snd (post_routes sample_db route_RT006) = sample_db).
Proof.
  apply (post_routes_keeps_ids_unique sample_db route_RT006). cbn. distinct.
Defined.

Lemma created_route_resolves_witness :
  let db' := with_routes sample_db (db_routes sample_db ++ [new_route "RT006" 20 Medium 60]) in
  routeMap_get (make_routeMap (db_routes db')) "RT006" = Resolved (new_route "RT006" 20 Medium 60)
  /\ (forall order, assignedRoute order = "RT006"%string ->
                    resolves (db_routes db') order = true)
  /\ (forall id, id <> "RT006"%string ->
                 routeMap_get (make_routeMap (db_routes db')) id
                 = routeMap_get (make_routeMap (db_routes sample_db)) id)
  /\ plain_catalog (db_routes db') = true.
Proof.
  apply (created_route_resolves sample_db _ route_RT006 201 (new_route "RT006" 20 Medium 60));
    [ reflexivity | reflexivity | discriminate ].
Defined.

Lemma order_created_iff_witness :
  post_orders sample_db order_ORD009
  = (Sent 201 (new_order_at 1700000000000 "ORD009" 400 "RT404"),
     with_orders sample_db
       (db_orders sample_db ++ [new_order_at 1700000000000 "ORD009" 400 "RT404"])).
Proof.
  apply (order_created_iff sample_db _ order_ORD009 201
           (new_order_at 1700000000000 "ORD009" 400 "RT404")).
  repeat split; try discriminate.
  cbn. intros H. repeat (destruct H as [H | H]; [discriminate H |]). exact H.
Defined.

Lemma post_orders_keeps_ids_unique_witness :
  List.NoDup (map orderId (db_orders (snd (post_orders sample_db order_ORD009))))
  /\ (forall code error, fst (post_orders sample_db order_ORD009) = Refused code error ->
      snd (post_orders sample_db order_ORD009) = sample_db).
Proof.
  apply (post_orders_keeps_ids_unique sample_db order_ORD009). cbn. distinct.
Defined.

Lemma driver_created_then_deleted_witness :
  exists driver,
    post_drivers (fun _ => 99%N) sample_db
      {| NewDriver.name := Some "Asha Rao"%string;
         NewDriver.currentShiftHours := Some 12;
         NewDriver.past7DayWorkHours := None |}
      = (Sent 201 driver, with_drivers sample_db (db_drivers sample_db ++ [driver]))
    /\ _id driver = 99%N /\ name driver = "Asha Rao"%string
    /\ currentShiftHours driver = or_zero (Some 12)
    /\ past7DayWorkHours driver = or_zero None
    /\ isFatigued driver = false
    /\ delete_drivers (with_drivers sample_db (db_drivers sample_db ++ [driver])) 99%N
       = (Sent 200 "Driver deleted successfully"%string, sample_db).
Proof.
  apply (driver_created_then_deleted (fun _ => 99%N) sample_db
           {| NewDriver.name := Some "Asha Rao"%string;
              NewDriver.currentShiftHours := Some 12;
              NewDriver.past7DayWorkHours := None |}
           "Asha Rao");
    [ reflexivity | discriminate | ].
  cbn. intros d H. repeat (destruct H as [<- | H]; [discriminate |]). destruct H.
Defined.

Lemma dangling_order_accepted_then_late_witness :
  let order := new_order_at 1700000000000 "ORD009" 400 "RT404" in
  let db' := with_orders sample_db (db_orders sample_db ++ [order]) in
  let run := post_simulation limit_whole next_id db' (request 3 "09:00" 8) in
  post_orders sample_db order_ORD009 = (Sent 201 order, db')
  /\ processedOrders run !! 8%nat = Some (Document order)
  /\ forall res delivery fuel sid,
       response run = Json res delivery fuel sid ->
       delivery = [ ("On Time"%string, 8%Z); ("Late"%string, 1%Z) ].
Proof.
  apply (dangling_order_accepted_then_late limit_whole next_id sample_db
           "ORD009" 400 "RT404" 1700000000000 3 "09:00" 8);
    try discriminate; try reflexivity.
  - cbn. intros H. repeat (destruct H as [H | H]; [discriminate H |]). exact H.
  - cbn. intros H. repeat (destruct H as [H | H]; [discriminate H |]). exact H.
  - cbn. lia.
Defined.

Lemma sample_run_after_init_witness :
  let db' := init_data N.of_nat (fun _ => 1700000000000%Z) dangling_db in
  let r := post_simulation limit_whole next_id db' (request 3 "09:00" 8) in
  ((3 <= 5)%Z ->
   exists res,
     response r
     = Json res [ ("On Time"%string, 8%Z); ("Late"%string, 0%Z) ]
         [ ("Low Traffic"%string, 190%Z); ("Medium Traffic"%string, 120%Z);
           ("High Traffic"%string, 560%Z) ]
         (next_id db')
     /\ Results.totalProfit res = 9480%Z /\ Results.efficiencyScore res == 100
     /\ Results.onTimeDeliveries res = 8%nat /\ Results.totalDeliveries res = 8%nat
     /\ Results.fuelCost res = 870%Z /\ Results.penalties res == 0
     /\ Results.bonuses res = 650%Z)
  /\ ((5 < 3)%Z -> response r = Status 400 (NotEnoughDrivers 5 3))
  /\ db_simulations db' = db_simulations dangling_db.
Proof.
  apply (sample_run_after_init limit_whole next_id N.of_nat (fun _ => 1700000000000%Z)
           dangling_db 3 "09:00" 8);
    reflexivity.
Defined.
